(** * oes-birger: controller, agent and command tool, embedded in Rocq

  A shallow embedding of the request paths of the reverse-tunnel router:
  the control API that mints credentials, the identity extraction of the
  service HTTPS listener, the HTTP response loop of the controller, the
  agent-side command runner and the command tool's receive loop.

  Go maps are [gmap]s, byte slices are lists of bytes, channels are the
  lists of what is received from them, and what a handler does to its
  [http.ResponseWriter] is kept as a log of what went to the client. *)

From Stdlib Require Import ZArith Strings.Ascii Strings.String Strings.Byte.
From stdpp Require Import gmap strings list fin_maps.

Local Open Scope Z_scope.

Definition bytes := list byte.

(** [[]byte(s)] for a Go string [s]. *)
Definition bytesOf (s : string) : bytes := String.list_byte_of_string s.

(* ===================================================================== *)
(** ** pkg/tunnel/tunnel.proto *)
(* ===================================================================== *)

Module tunnel.

Inductive ChannelDirection := STDIN | STDOUT | STDERR.

Definition ChannelDirection_eqb (a b : ChannelDirection) : bool :=
  match a, b with
  | STDIN, STDIN | STDOUT, STDOUT | STDERR, STDERR => true
  | _, _ => false
  end.

Record HttpHeader := mkHttpHeader {
  hh_Name : string;
  hh_Values : list string
}.

Record HttpRequest := mkHttpRequest {
  req_Id : string;
  req_Name : string;
  req_Type : string;
  req_Method : string;
  req_URI : string;
  req_Headers : list HttpHeader;
  req_Body : bytes
}.

Record HttpResponse := mkHttpResponse {
  resp_Id : string;
  resp_Status : Z;
  resp_Headers : list HttpHeader;
  resp_ContentLength : Z
}.

Record HttpChunkedResponse := mkHttpChunkedResponse {
  chunk_Id : string;
  chunk_Body : bytes
}.

Record CommandRequest := mkCommandRequest {
  cr_Id : string;
  cr_Name : string;
  cr_Arguments : list string;
  cr_Environment : list string
}.

Record CommandData := mkCommandData {
  cd_Id : string;
  cd_Body : bytes;
  cd_Channel : ChannelDirection;
  cd_Closed : bool
}.

Record CommandTermination := mkCommandTermination {
  ct_Id : string;
  ct_ExitCode : Z;
  ct_Message : string
}.

Record CmdToolCommandData := mkCmdToolCommandData {
  tcd_Body : bytes;
  tcd_Channel : ChannelDirection;
  tcd_Closed : bool
}.

Record CmdToolCommandTermination := mkCmdToolCommandTermination {
  tct_ExitCode : Z;
  tct_Message : string
}.

(** The [oneof event] of [AgentToControllerWrapper]; [A2C_nil] is the
    wrapper whose event is unset. *)
Inductive AgentToControllerWrapper :=
| A2C_PingRequest (ts : Z)
| A2C_HttpResponse (r : HttpResponse)
| A2C_HttpChunkedResponse (c : HttpChunkedResponse)
| A2C_AgentHello
| A2C_CommandData (d : CommandData)
| A2C_CommandTermination (t : CommandTermination)
| A2C_nil.

(** The [oneof event] of [ControllerToCmdToolWrapper]. *)
Inductive ControllerToCmdToolWrapper :=
| C2T_CommandTermination (t : CmdToolCommandTermination)
| C2T_CommandData (d : CmdToolCommandData)
| C2T_nil.

End tunnel.

(* ===================================================================== *)
(** ** pkg/ca, as the controller uses it *)
(* ===================================================================== *)

Module ca.

(** Modelled from the spec: pkg/ca's certificate purposes
    ([purpose ∈ {agent, service, control}]). *)
Inductive CertificatePurpose :=
| CertificatePurposeAgent
| CertificatePurposeService
| CertificatePurposeControl.

Definition CertificatePurpose_eqb (a b : CertificatePurpose) : bool :=
  match a, b with
  | CertificatePurposeAgent, CertificatePurposeAgent
  | CertificatePurposeService, CertificatePurposeService
  | CertificatePurposeControl, CertificatePurposeControl => true
  | _, _ => false
  end.

Definition purposeString (p : CertificatePurpose) : string :=
  match p with
  | CertificatePurposeAgent => "agent"
  | CertificatePurposeService => "service"
  | CertificatePurposeControl => "control"
  end.

(** Modelled from the spec: pkg/ca's [CertificateName], with the four
    fields the handlers fill in; a field left out of a Go composite
    literal is the empty string. *)
Record CertificateName := mkCertificateName {
  cn_Name : string;
  cn_Type : string;
  cn_Agent : string;
  cn_Purpose : CertificatePurpose
}.

(** Modelled from the spec: an x509 leaf certificate, reduced to what the
    controller reads off it: the subject's common name, and the
    structured name its CN encodes when it matches the schema. *)
Record Certificate := mkCertificate {
  Subject_CommonName : string;
  encodedName : option CertificateName
}.

(** Modelled from the spec: pkg/ca's [GetCertificateNameFromCert]
    ([ParseCertName]); it fails when the CN does not match the schema. *)
Definition GetCertificateNameFromCert (c : Certificate) : CertificateName + string :=
  match encodedName c with
  | Some n => inl n
  | None => inr "certificate name does not match the schema"
  end.

(** What [GenerateCertificate] hands back: base64 of the CA certificate,
    the leaf certificate and its key. *)
Record Issued := mkIssued {
  ca64 : string;
  user64 : Certificate;
  key64 : string
}.

Section Authority.
(** How the authority renders a name as a CN, its CA certificate and
    the key it generates are not fixed here. *)
Variable commonNameOf : CertificateName -> string.
Variable caCert : string.
Variable freshKey : string.

(** Modelled from the spec: pkg/ca's [GenerateCertificate]
    ([IssueXCert]): the leaf's CN encodes the name it was issued for,
    and parsing it gives the same tuple back. *)
Definition GenerateCertificate (name : CertificateName) : Issued + string :=
  inl {| ca64 := caCert;
         user64 := {| Subject_CommonName := commonNameOf name;
                      encodedName := Some name |};
         key64 := freshKey |}.
End Authority.

End ca.

(* ===================================================================== *)
(** ** The control API (package cncserver) *)
(* ===================================================================== *)

Module cncserver.
Import ca.

Definition StatusBadRequest : Z := 400.
Definition StatusForbidden : Z := 403.
Definition StatusMethodNotAllowed : Z := 405.

(** A request on the control listener: its method, the verified peer
    certificates, and the body as [json.NewDecoder(r.Body).Decode]
    yields it ([None] when decoding fails). *)
Record Request (Body : Type) := mkRequest {
  Method : string;
  PeerCertificates : list Certificate;
  decoded : option Body
}.
Arguments Method {Body} _.
Arguments PeerCertificates {Body} _.
Arguments decoded {Body} _.

(** What a handler did: [util.FailRequest(w, err, status)], a JSON
    reply, or a run-time panic. *)
Inductive Reply (A : Type) :=
| FailRequest (err : string) (status : Z)
| Wrote (json : A)
| Panicked.
Arguments FailRequest {A} _ _.
Arguments Wrote {A} _.
Arguments Panicked {A}.

Record ControlCredentialsRequest := mkControlCredentialsRequest {
  ccr_Name : string
}.

Record ControlCredentialsResponse := mkControlCredentialsResponse {
  ccresp_Name : string;
  ccresp_URL : string;
  ccresp_Certificate : Certificate;
  ccresp_Key : string;
  ccresp_CACert : string
}.

Record ManifestRequest := mkManifestRequest {
  mr_AgentName : string
}.

Section Server.
(** The collaborators of [cncServer]: its authority and its config. *)
Variable GenerateCertificate : CertificateName -> Issued + string.
Variable GetControlURL : string.

(** [func (c *cncServer) authenticate(method, h)] *)
Definition authenticate {B A : Type} (method : string)
    (h : Request B -> Reply A) (r : Request B) : Reply A :=
  if negb (String.eqb (Method r) method) then
    FailRequest ("only '" +:+ method +:+ "' is accepted (not '" +:+ Method r +:+ "')")
                StatusMethodNotAllowed
  else
    match PeerCertificates r with
    | [] => Panicked
    | cert :: _ =>
        match GetCertificateNameFromCert cert with
        | inr err => FailRequest err StatusForbidden
        | inl names =>
            if negb (CertificatePurpose_eqb (cn_Purpose names) CertificatePurposeControl) then
              FailRequest ("certificate is not authorized for 'control': "
                             +:+ purposeString (cn_Purpose names))
                          StatusForbidden
            else h r
        end
    end.

(** The name [generateControlCredentials] asks the authority to sign. *)
Definition controlCertificateName (req : ControlCredentialsRequest) : CertificateName :=
  {| cn_Name := ccr_Name req;
     cn_Type := "";
     cn_Agent := "";
     cn_Purpose := CertificatePurposeAgent |}.

(** [func (s *cncServer) generateControlCredentials()] *)
Definition generateControlCredentials (r : Request ControlCredentialsRequest)
    : Reply ControlCredentialsResponse :=
  match decoded r with
  | None => FailRequest "json: cannot decode" StatusBadRequest
  | Some req =>
      let name := controlCertificateName req in
      match GenerateCertificate name with
      | inr err => FailRequest err StatusBadRequest
      | inl iss =>
          Wrote {| ccresp_Name := ccr_Name req;
                   ccresp_URL := GetControlURL;
                   ccresp_Certificate := user64 iss;
                   ccresp_Key := key64 iss;
                   ccresp_CACert := ca64 iss |}
      end
  end.

(** The name [generateAgentManifestComponents] asks the authority to
    sign: the sibling handler that mints agent certificates. *)
Definition agentCertificateName (req : ManifestRequest) : CertificateName :=
  {| cn_Name := "";
     cn_Type := "";
     cn_Agent := mr_AgentName req;
     cn_Purpose := CertificatePurposeAgent |}.

Record KubeConfigRequest := mkKubeConfigRequest {
  kcr_AgentName : string;
  kcr_Name : string
}.

Record KubeConfigResponse := mkKubeConfigResponse {
  kcresp_AgentName : string;
  kcresp_Name : string;
  kcresp_ServerURL : string;
  kcresp_UserCertificate : Certificate;
  kcresp_UserKey : string;
  kcresp_CACert : string
}.

Record ManifestResponse := mkManifestResponse {
  mresp_AgentName : string;
  mresp_ServerHostname : string;
  mresp_ServerPort : Z;
  mresp_AgentCertificate : Certificate;
  mresp_AgentKey : string;
  mresp_CACert : string
}.

Record ServiceCredentialRequest := mkServiceCredentialRequest {
  scr_AgentName : string;
  scr_Type : string;
  scr_Name : string
}.

(** The [Credential] of a [ServiceCredentialResponse]. *)
Inductive Credential :=
| AwsCredentialResponse (AwsAccessKey AwsSecretAccessKey : string)
| BasicCredentialResponse (Username Password : string).

(** [fwdapi.ServiceCredentialResponse]; the two deprecated fields are the
    empty string when they are not set. *)
Record ServiceCredentialResponse := mkServiceCredentialResponse {
  scresp_AgentName : string;
  scresp_Name : string;
  scresp_Type : string;
  scresp_URL : string;
  scresp_CACert : string;
  scresp_Username : string;
  scresp_Password : string;
  scresp_CredentialType : string;
  scresp_Credential : Credential
}.

(** The [Validate()] methods of the fwdapi requests, giving the error
    when there is one. *)
Variable validateKubeConfig : KubeConfigRequest -> option string.
Variable validateManifest : ManifestRequest -> option string.
Variable validateServiceCredential : ServiceCredentialRequest -> option string.
(** The rest of the config and of the authority. *)
Variable GetServiceURL : string.
Variable GetAgentHostname : string.
Variable GetAgentAdvertisePort : Z.
Variable GetCACert : string.
(** The key set: [s.jwkKeyset.LookupKeyID], [s.jwtCurrentKey], and
    [jwtutil.MakeJWT(key, epType, epName, agent)]. *)
Variable Key : Type.
Variable LookupKeyID : string -> option Key.
Variable jwtCurrentKey : string.
Variable MakeJWT : Key -> string -> string -> string -> string + string.

(** [func (s *cncServer) generateKubectlComponents()]; marshalling these
    structs of strings does not fail. *)
Definition generateKubectlComponents (r : Request KubeConfigRequest)
    : Reply KubeConfigResponse :=
  match decoded r with
  | None => FailRequest "json: cannot decode" StatusBadRequest
  | Some req =>
      match validateKubeConfig req with
      | Some err => FailRequest err StatusBadRequest
      | None =>
          let name := {| cn_Name := kcr_Name req;
                         cn_Type := "kubernetes";
                         cn_Agent := kcr_AgentName req;
                         cn_Purpose := CertificatePurposeService |} in
          match GenerateCertificate name with
          | inr err => FailRequest err StatusBadRequest
          | inl iss =>
              Wrote {| kcresp_AgentName := kcr_AgentName req;
                       kcresp_Name := kcr_Name req;
                       kcresp_ServerURL := GetServiceURL;
                       kcresp_UserCertificate := user64 iss;
                       kcresp_UserKey := key64 iss;
                       kcresp_CACert := ca64 iss |}
          end
      end
  end.

(** [func (s *cncServer) generateAgentManifestComponents()] *)
Definition generateAgentManifestComponents (r : Request ManifestRequest)
    : Reply ManifestResponse :=
  match decoded r with
  | None => FailRequest "json: cannot decode" StatusBadRequest
  | Some req =>
      match validateManifest req with
      | Some err => FailRequest err StatusBadRequest
      | None =>
          match GenerateCertificate (agentCertificateName req) with
          | inr err => FailRequest err StatusBadRequest
          | inl iss =>
              Wrote {| mresp_AgentName := mr_AgentName req;
                       mresp_ServerHostname := GetAgentHostname;
                       mresp_ServerPort := GetAgentAdvertisePort;
                       mresp_AgentCertificate := user64 iss;
                       mresp_AgentKey := key64 iss;
                       mresp_CACert := ca64 iss |}
          end
      end
  end.

(** [func (s *cncServer) generateServiceCredentials()] *)
Definition generateServiceCredentials (r : Request ServiceCredentialRequest)
    : Reply ServiceCredentialResponse :=
  match decoded r with
  | None => FailRequest "json: cannot decode" StatusBadRequest
  | Some req =>
      match validateServiceCredential req with
      | Some err => FailRequest err StatusBadRequest
      | None =>
          match LookupKeyID jwtCurrentKey with
          | None =>
              FailRequest ("unable to find service key '" +:+ jwtCurrentKey +:+ "'")
                          StatusBadRequest
          | Some key =>
              match MakeJWT key (scr_Type req) (scr_Name req) (scr_AgentName req) with
              | inr err => FailRequest err StatusBadRequest
              | inl token =>
                  let username := scr_Name req +:+ "." +:+ scr_AgentName req in
                  if String.eqb (scr_Type req) "aws" then
                    Wrote {| scresp_AgentName := scr_AgentName req;
                             scresp_Name := scr_Name req;
                             scresp_Type := scr_Type req;
                             scresp_URL := GetServiceURL;
                             scresp_CACert := GetCACert;
                             scresp_Username := "";
                             scresp_Password := "";
                             scresp_CredentialType := "aws";
                             scresp_Credential := AwsCredentialResponse username token |}
                  else
                    Wrote {| scresp_AgentName := scr_AgentName req;
                             scresp_Name := scr_Name req;
                             scresp_Type := scr_Type req;
                             scresp_URL := GetServiceURL;
                             scresp_CACert := GetCACert;
                             scresp_Username := username;
                             scresp_Password := token;
                             scresp_CredentialType := "basic";
                             scresp_Credential := BasicCredentialResponse username token |}
              end
          end
      end
  end.

(** The condition under which the gate lets a request through: the
    method is the expected one and the first peer certificate parses to
    a name whose purpose is control. *)
Definition passesGate {B : Type} (method : string) (r : Request B) : bool :=
  String.eqb (Method r) method
  && match PeerCertificates r with
     | cert :: _ =>
         match encodedName cert with
         | Some names => CertificatePurpose_eqb (cn_Purpose names) CertificatePurposeControl
         | None => false
         end
     | [] => false
     end.

Definition isWrote {A : Type} (reply : Reply A) : bool :=
  match reply with Wrote _ => true | _ => false end.

End Server.

End cncserver.


(* ===================================================================== *)
(** ** net/http, as the handlers use it *)
(* ===================================================================== *)

Module http.

Definition StatusOK : Z := 200.
Definition StatusBadRequest : Z := 400.
Definition StatusBadGateway : Z := 502.

Definition isLower (c : ascii) : bool :=
  ((97 <=? N_of_ascii c) && (N_of_ascii c <=? 122))%N.

Definition isUpper (c : ascii) : bool :=
  ((65 <=? N_of_ascii c) && (N_of_ascii c <=? 90))%N.

Definition isDigit (c : ascii) : bool :=
  ((48 <=? N_of_ascii c) && (N_of_ascii c <=? 57))%N.

(** The token bytes of RFC 7230, the ones a header field name is made of. *)
Definition validHeaderFieldByte (c : ascii) : bool :=
  isLower c || isUpper c || isDigit c
  || existsb (Ascii.eqb c) (list_ascii_of_string "!#$%&'*+-.^_`|~").

Definition toUpper (c : ascii) : ascii := ascii_of_N (N_of_ascii c - 32).
Definition toLower (c : ascii) : ascii := ascii_of_N (N_of_ascii c + 32).

(** First letter upper case, upper case after each dash, lower case
    elsewhere. *)
Fixpoint canonicalize (upper : bool) (s : string) : string :=
  match s with
  | EmptyString => EmptyString
  | String c rest =>
      let c' := if upper && isLower c then toUpper c
                else if negb upper && isUpper c then toLower c
                else c in
      String c' (canonicalize (Ascii.eqb c' "-") rest)
  end.

(** [textproto.CanonicalMIMEHeaderKey]: a key with a byte that no header
    name has is handed back as it is. *)
Definition CanonicalMIMEHeaderKey (s : string) : string :=
  if forallb validHeaderFieldByte (list_ascii_of_string s)
  then canonicalize true s
  else s.

(** [http.Header] is [map[string][]string]. *)
Abbreviation Header := (gmap string (list string)).

(** [h.Add(key, value)] *)
Definition Header_Add (key value : string) (h : Header) : Header :=
  let k := CanonicalMIMEHeaderKey key in
  <[k := default [] (h !! k) ++ [value]]> h.

(** [h.Del(key)] *)
Definition Header_Del (key : string) (h : Header) : Header :=
  delete (CanonicalMIMEHeaderKey key) h.

(** The keys a [for name := range h] visits. *)
Definition Header_keys (h : Header) : list string := (map_to_list h).*1.

(** What has gone to the client, in order. *)
Inductive Sent :=
| SentHeader (code : Z) (header : Header)
| SentBody (b : bytes)
| Flushed.

(** An [http.ResponseWriter]: the header map [w.Header()] hands out,
    whether the status line is out, and what was sent so far. *)
Record ResponseWriter := mkResponseWriter {
  rw_header : Header;
  rw_wroteHeader : bool;
  rw_sent : list Sent
}.

Definition newResponseWriter : ResponseWriter :=
  {| rw_header := ∅; rw_wroteHeader := false; rw_sent := [] |}.

(** The writer after the handler has changed the map [w.Header()]
    returned. *)
Definition withHeader (h : Header) (w : ResponseWriter) : ResponseWriter :=
  {| rw_header := h; rw_wroteHeader := rw_wroteHeader w; rw_sent := rw_sent w |}.

(** net/http's [checkWriteHeaderCode]: a status code has three digits. *)
Definition checkWriteHeaderCode (code : Z) : bool :=
  (100 <=? code) && (code <=? 999).

(** What a [WriteHeader] that goes through does: the first one sends the
    status line and the headers as they are then; a later one is
    superfluous and sends nothing. *)
Definition sendHeader (code : Z) (w : ResponseWriter) : ResponseWriter :=
  if rw_wroteHeader w then w
  else {| rw_header := rw_header w;
          rw_wroteHeader := true;
          rw_sent := rw_sent w ++ [SentHeader code (rw_header w)] |}.

(** [w.WriteHeader(code)]: a call after the status line is out is
    superfluous and sends nothing; the first call checks the code and
    panics ([None]) when it is not in 100..999, and otherwise sends the
    status line and the headers as they are then. This is the net/http
    of the Go releases of 2021, which the repository is written for;
    from Go 1.19 on a code in 100..199 other than 101 is sent as an
    informational header and leaves the writer open for the final
    [WriteHeader]. *)
Definition WriteHeader (code : Z) (w : ResponseWriter) : option ResponseWriter :=
  if rw_wroteHeader w then Some w
  else if checkWriteHeaderCode code
       then Some {| rw_header := rw_header w;
                    rw_wroteHeader := true;
                    rw_sent := rw_sent w ++ [SentHeader code (rw_header w)] |}
       else None.

(** [w.Write(b)]: when [WriteHeader] was not called yet, the write first
    does [WriteHeader(http.StatusOK)], a code the check lets through. *)
Definition Write (b : bytes) (w : ResponseWriter) : ResponseWriter :=
  let w1 := if rw_wroteHeader w then w else sendHeader StatusOK w in
  {| rw_header := rw_header w1;
     rw_wroteHeader := rw_wroteHeader w1;
     rw_sent := rw_sent w1 ++ [SentBody b] |}.

(** [w.(http.Flusher).Flush()] *)
Definition Flush (w : ResponseWriter) : ResponseWriter :=
  let w1 := if rw_wroteHeader w then w else sendHeader StatusOK w in
  {| rw_header := rw_header w1;
     rw_wroteHeader := rw_wroteHeader w1;
     rw_sent := rw_sent w1 ++ [Flushed] |}.

(** The status line the client got, if any. *)
Fixpoint statusOf (l : list Sent) : option Z :=
  match l with
  | [] => None
  | SentHeader code _ :: _ => Some code
  | _ :: rest => statusOf rest
  end.


(** The body the client got. *)
Fixpoint bodyOf (l : list Sent) : bytes :=
  match l with
  | [] => []
  | SentBody b :: rest => b ++ bodyOf rest
  | _ :: rest => bodyOf rest
  end.


(** An inbound request: [r.TLS.PeerCertificates], what [r.BasicAuth()]
    returns (user and password, when the request has Basic credentials),
    and the rest as the handlers read it. *)
Record Request := mkRequest {
  Method : string;
  RequestURI : string;
  Header_ : Header;
  Body : bytes;
  PeerCertificates : list ca.Certificate;
  BasicAuth : option (string * string)
}.

Definition withRequestHeader (h : Header) (r : Request) : Request :=
  {| Method := Method r; RequestURI := RequestURI r; Header_ := h;
     Body := Body r; PeerCertificates := PeerCertificates r;
     BasicAuth := BasicAuth r |}.


(** [h.Set(key, value)] *)
Definition Header_Set (key value : string) (h : Header) : Header :=
  <[CanonicalMIMEHeaderKey key := [value]]> h.

Definition isSentHeader (e : Sent) : bool :=
  match e with SentHeader _ _ => true | _ => false end.

(** What a client can read as one response: nothing yet, or one status
    line with its headers and after it only body bytes and flushes. *)
Definition orderly (l : list Sent) : bool :=
  match l with
  | [] => true
  | SentHeader _ _ :: rest => forallb (λ e, negb (isSentHeader e)) rest
  | _ :: _ => false
  end.

(** The writer's flag and its log agree, and the log is orderly. *)
Definition consistent (w : ResponseWriter) : bool :=
  orderly (rw_sent w)
  && Bool.eqb (rw_wroteHeader w)
       (match rw_sent w with [] => false | _ :: _ => true end).

End http.


(* ===================================================================== *)
(** ** The controller's HTTPS listeners (app/controller) *)
(* ===================================================================== *)

Module controller.
Import tunnel ca http.

(** [agent.AgentSearch], with the fields [serviceAPIHandler] and
    [runAPIHandler] set. *)
Record AgentSearch := mkAgentSearch {
  as_Name : string;
  as_EndpointType : string;
  as_EndpointName : string;
  as_Session : string
}.

(** [func firstLabel(name string) string]: [strings.Split(name, ".")[0]] *)
Fixpoint firstLabel (name : string) : string :=
  match name with
  | EmptyString => EmptyString
  | String c rest => if Ascii.eqb c "." then EmptyString else String c (firstLabel rest)
  end.

(** [func makeHeaders(headers map[string][]string) []*tunnel.HttpHeader] *)
Definition makeHeaders (headers : Header) : list HttpHeader :=
  (λ nv, mkHttpHeader nv.1 nv.2)
    <$> filter (λ nv, negb (String.eqb nv.1 "Accept-Encoding")) (map_to_list headers).

(** [func extractEndpointFromCert(r *http.Request)] *)
Definition extractEndpointFromCert (r : Request) : string * string * string * bool :=
  match PeerCertificates r with
  | [] => ("", "", "", false)
  | cert :: _ =>
      match GetCertificateNameFromCert cert with
      | inr _ => ("", "", "", false)
      | inl names =>
          if negb (CertificatePurpose_eqb (cn_Purpose names) CertificatePurposeService)
          then ("", "", "", false)
          else (cn_Agent names, cn_Type names, cn_Name names, true)
      end
  end.

(** What one message received from [message.Out] gives: [in, more]. *)
Inductive Recv :=
| RecvMsg (msg : AgentToControllerWrapper)
| RecvClosed.

(** The locals of the response loop, together with the writer and the
    request the handler was given. *)
Record Handler := mkHandler {
  w : ResponseWriter;
  r : Request;
  seenHeader : bool;
  isChunked : bool;
  cleanClose : bool
}.

(** One turn of the loop either goes round again or returns, or the
    handler is aborted by a panic of [WriteHeader]. *)
Inductive Turn :=
| Continue (st : Handler)
| Return (st : Handler)
| Panic (st : Handler).

(** Where the handler is after the messages it was given: returned,
    blocked in [<-message.Out], or aborted by a panic, with its locals as
    they were then. *)
Inductive Outcome :=
| Returned (st : Handler)
| Receiving (st : Handler)
| Panicked (st : Handler).

Definition stateOf (o : Outcome) : Handler :=
  match o with Returned st | Receiving st | Panicked st => st end.

Definition hasReturned (o : Outcome) : bool :=
  match o with Returned _ => true | _ => false end.

Definition hasPanicked (o : Outcome) : bool :=
  match o with Panicked _ => true | _ => false end.

(** The handler calls [w.WriteHeader(code)] and goes on with [k] on the
    writer after the call, or is aborted by the panic. *)
Definition callWriteHeader (code : Z) (st : Handler)
    (k : ResponseWriter -> Turn) : Turn :=
  match WriteHeader code (w st) with
  | Some w' => k w'
  | None => Panic st
  end.

(** How a handler that does its last turn ends. *)
Definition ended (t : Turn) : Outcome :=
  match t with
  | Continue st | Return st => Returned st
  | Panic st => Panicked st
  end.

(** [for name := range w.Header() { r.Header.Del(name) }] *)
Definition clearHeaders (st : Handler) : Handler :=
  let rh := foldr Header_Del (Header_ (r st)) (Header_keys (rw_header (w st))) in
  {| w := w st; r := withRequestHeader rh (r st);
     seenHeader := seenHeader st; isChunked := isChunked st;
     cleanClose := cleanClose st |}.

(** [for _, header := range resp.Headers {
       for _, value := range header.Values {
         w.Header().Add(header.Name, value) } }] *)
Definition copyHeaders (headers : list HttpHeader) (h : Header) : Header :=
  foldl (λ h header,
           foldl (λ h value, Header_Add (hh_Name header) value h) h (hh_Values header))
        h headers.

(** [case *tunnel.AgentToControllerWrapper_HttpResponse:] *)
Definition onHttpResponse (resp : HttpResponse) (st : Handler) : Turn :=
  let st1 := clearHeaders st in
  let w1 := withHeader (copyHeaders (resp_Headers resp) (rw_header (w st1))) (w st1) in
  callWriteHeader (resp_Status resp)
    {| w := w1; r := r st1;
       seenHeader := true;
       isChunked := resp_ContentLength resp <? 0;
       cleanClose := cleanClose st1 |}
    (λ w2,
       let st2 := {| w := w2; r := r st1;
                     seenHeader := true;
                     isChunked := resp_ContentLength resp <? 0;
                     cleanClose := cleanClose st1 |} in
       if resp_ContentLength resp =? 0 then
         Return {| w := w st2; r := r st2; seenHeader := seenHeader st2;
                   isChunked := isChunked st2; cleanClose := true |}
       else Continue st2).

(** [case *tunnel.AgentToControllerWrapper_HttpChunkedResponse:] *)
Definition onHttpChunkedResponse (resp : HttpChunkedResponse) (st : Handler) : Turn :=
  if negb (seenHeader st) then
    callWriteHeader StatusBadGateway st
      (λ w1, Return {| w := w1; r := r st;
                       seenHeader := seenHeader st; isChunked := isChunked st;
                       cleanClose := cleanClose st |})
  else if (length (chunk_Body resp) =? 0)%nat then
    Return {| w := w st; r := r st; seenHeader := seenHeader st;
              isChunked := isChunked st; cleanClose := true |}
  else
    let w1 := Write (chunk_Body resp) (w st) in
    let w2 := if isChunked st then Flush w1 else w1 in
    Continue {| w := w2; r := r st; seenHeader := seenHeader st;
                isChunked := isChunked st; cleanClose := cleanClose st |}.

(** [switch x := in.Event.(type)]: the other events are logged or
    ignored. *)
Definition onMessage (msg : AgentToControllerWrapper) (st : Handler) : Turn :=
  match msg with
  | A2C_HttpResponse resp => onHttpResponse resp st
  | A2C_HttpChunkedResponse resp => onHttpChunkedResponse resp st
  | A2C_nil => Continue st
  | _ => Continue st
  end.

(** [if !more { ... }] *)
Definition onClosed (st : Handler) : Turn :=
  if negb (seenHeader st) then
    callWriteHeader StatusBadGateway st
      (λ w1, Return {| w := w1; r := r st; seenHeader := seenHeader st;
                       isChunked := isChunked st; cleanClose := true |})
  else
    Return {| w := w st; r := r st; seenHeader := seenHeader st;
              isChunked := isChunked st; cleanClose := true |}.

(** The [for] loop of [runAPIHandler] and of [kubernetesAPIHandler], over
    what [message.Out] delivers; once the list is used up the handler
    waits for the next message. *)
Fixpoint responseLoop (out : list Recv) (st : Handler) : Outcome :=
  match out with
  | [] => Receiving st
  | RecvClosed :: _ => ended (onClosed st)
  | RecvMsg msg :: rest =>
      match onMessage msg st with
      | Return st' => Returned st'
      | Panic st' => Panicked st'
      | Continue st' => responseLoop rest st'
      end
  end.

Definition turnState (t : Turn) : Handler :=
  match t with Continue st | Return st | Panic st => st end.

(** A writer nothing was sent on yet, whose header map is [h]. *)
Definition freshWriter (h : Header) : ResponseWriter :=
  withHeader h newResponseWriter.

(** [len(resp.Body) != 0] *)
Definition nonEmptyChunk (c : HttpChunkedResponse) : bool :=
  negb (length (chunk_Body c) =? 0)%nat.

(** A chunk frame as [message.Out] delivers it. *)
Definition chunkFrame (c : HttpChunkedResponse) : Recv :=
  RecvMsg (A2C_HttpChunkedResponse c).

(** A frame after which the loop goes round again once the header is out:
    a chunk with a body, or an event the loop ignores or only logs. *)
Definition keepsGoing (msg : AgentToControllerWrapper) : bool :=
  match msg with
  | A2C_HttpResponse _ => false
  | A2C_HttpChunkedResponse c => nonEmptyChunk c
  | _ => true
  end.

(** The bodies of the [HttpChunkedResponse] frames among [msgs], in
    order. *)
Fixpoint chunkBodies (msgs : list AgentToControllerWrapper) : list bytes :=
  match msgs with
  | [] => []
  | A2C_HttpChunkedResponse c :: rest => chunk_Body c :: chunkBodies rest
  | _ :: rest => chunkBodies rest
  end.

(** What goes to the client for a run of body chunks: each is written,
    and flushed at once when [flush] is set. *)
Definition written (flush : bool) (bodies : list bytes) : list Sent :=
  flat_map (λ b, if flush then [SentBody b; Flushed] else [SentBody b]) bodies.


(** The locals at the top of the loop. *)
Definition enterLoop (w0 : ResponseWriter) (r0 : Request) : Handler :=
  {| w := w0; r := r0; seenHeader := false; isChunked := false; cleanClose := false |}.

(** The state after a run of body chunks was written. *)
Definition afterChunks (st : Handler) (bodies : list bytes) : Handler :=
  {| w := {| rw_header := rw_header (w st); rw_wroteHeader := true;
             rw_sent := rw_sent (w st) ++ written (isChunked st) bodies |};
     r := r st; seenHeader := true; isChunked := isChunked st;
     cleanClose := cleanClose st |}.

(** The state the loop is in after the [HttpResponse] frame, when the
    writer was fresh. *)
Definition afterResponse (h : Header) (r0 : Request) (resp : HttpResponse) : Handler :=
  {| w := {| rw_header := copyHeaders (resp_Headers resp) h;
             rw_wroteHeader := true;
             rw_sent := [SentHeader (resp_Status resp)
                           (copyHeaders (resp_Headers resp) h)] |};
     r := withRequestHeader (foldr Header_Del (Header_ r0) (Header_keys h)) r0;
     seenHeader := true;
     isChunked := resp_ContentLength resp <? 0;
     cleanClose := false |}.

(** What a handler leaves behind: where it is, and the requests it put on
    an agent's session. *)
Record Served := mkServed {
  outcome : Outcome;
  dispatched : list (AgentSearch * HttpRequest)
}.

Section Service.
(** [ValidateJWT(jwtKeyset, password)], giving the endpoint type, the
    endpoint name and the agent identity of a token it accepts. *)
Variable ValidateJWT : string -> option (string * string * string).
(** [httpError(err)], the body of an error reply. *)
Variable httpError : string -> bytes.
(** [ulidContext.Ulid()] *)
Variable transactionID : string.
(** [agents.Send(ep, message)]: the session the request went to, if one
    was found; the messages of that session for this request then arrive
    on [message.Out]. *)
Variable Send : AgentSearch -> HttpRequest -> option string.
(** [agents.SendToAgent(ep, message)] of the Kubernetes listener. *)
Variable SendToAgent : string -> HttpRequest -> bool.

(** [func extractEndpointFromJWT(r *http.Request)] *)
Definition extractEndpointFromJWT (r : Request) : string * string * string * bool :=
  match BasicAuth r with
  | None => ("", "", "", false)
  | Some (_, authPassword) =>
      match ValidateJWT authPassword with
      | None => ("", "", "", false)
      | Some (endpointType, endpointName, agentIdentity) =>
          (agentIdentity, endpointType, endpointName, true)
      end
  end.

(** [func extractEndpoint(r *http.Request)] *)
Definition extractEndpoint (r : Request) : (string * string * string) + string :=
  let '(agentIdentity, endpointType, endpointName, found) := extractEndpointFromCert r in
  if found then inl (agentIdentity, endpointType, endpointName)
  else
    let '(agentIdentity, endpointType, endpointName, found) := extractEndpointFromJWT r in
    if found then inl (agentIdentity, endpointType, endpointName)
    else inr "no valid credentials or JWT found".

(** [func runAPIHandler(ep agent.AgentSearch, w http.ResponseWriter, r *http.Request)] *)
Definition runAPIHandler (ep : AgentSearch) (w0 : ResponseWriter) (r0 : Request)
    (out : list Recv) : Served :=
  let req := {| req_Id := transactionID;
                req_Type := as_EndpointType ep;
                req_Name := as_EndpointName ep;
                req_Method := Method r0;
                req_URI := RequestURI r0;
                req_Headers := makeHeaders (Header_ r0);
                req_Body := Body r0 |} in
  match Send ep req with
  | None =>
      {| outcome := ended (callWriteHeader StatusBadGateway (enterLoop w0 r0)
                             (λ w1, Return {| w := w1; r := r0;
                                              seenHeader := false; isChunked := false;
                                              cleanClose := false |}));
         dispatched := [] |}
  | Some sessionID =>
      {| outcome := responseLoop out (enterLoop w0 r0);
         dispatched := [(ep, req)] |}
  end.

(** [func serviceAPIHandler(w http.ResponseWriter, r *http.Request)] *)
Definition serviceAPIHandler (w0 : ResponseWriter) (r0 : Request)
    (out : list Recv) : Served :=
  match extractEndpoint r0 with
  | inr err =>
      let w1 := Write (httpError err) w0 in
      {| outcome := ended (callWriteHeader StatusBadRequest (enterLoop w1 r0)
                             (λ w2, Return {| w := w2; r := r0; seenHeader := false;
                                              isChunked := false;
                                              cleanClose := false |}));
         dispatched := [] |}
  | inl (agentIdentity, endpointType, endpointName) =>
      let ep := {| as_Name := agentIdentity;
                   as_EndpointType := endpointType;
                   as_EndpointName := endpointName;
                   as_Session := "" |} in
      runAPIHandler ep w0 r0 out
  end.

(** [func kubernetesAPIHandler(w http.ResponseWriter, r *http.Request)];
    [None] is the panic of indexing an empty [PeerCertificates]. *)
Definition kubernetesAPIHandler (w0 : ResponseWriter) (r0 : Request)
    (out : list Recv) : option Served :=
  match PeerCertificates r0 with
  | [] => None
  | cert :: _ =>
      let agentname := firstLabel (Subject_CommonName cert) in
      let req := {| req_Id := transactionID;
                    req_Type := "kubernetes";
                    req_Name := "";
                    req_Method := Method r0;
                    req_URI := RequestURI r0;
                    req_Headers := makeHeaders (Header_ r0);
                    req_Body := Body r0 |} in
      let ep := {| as_Name := agentname; as_EndpointType := "";
                   as_EndpointName := ""; as_Session := "" |} in
      if negb (SendToAgent agentname req) then
        Some {| outcome := ended (callWriteHeader StatusBadGateway (enterLoop w0 r0)
                                    (λ w1, Return {| w := w1; r := r0;
                                                     seenHeader := false;
                                                     isChunked := false;
                                                     cleanClose := false |}));
                dispatched := [] |}
      else
        Some {| outcome := responseLoop out (enterLoop w0 r0);
                dispatched := [(ep, req)] |}
  end.

End Service.


(** [strings.Split(s, ".")] *)
Fixpoint Split_dot (s : string) : list string :=
  match s with
  | EmptyString => [EmptyString]
  | String c rest =>
      if Ascii.eqb c "." then EmptyString :: Split_dot rest
      else match Split_dot rest with
           | label :: labels => String c label :: labels
           | [] => [String c EmptyString]
           end
  end.

(** [strings.Join(labels, ".")] *)
Fixpoint Join_dot (labels : list string) : string :=
  match labels with
  | [] => EmptyString
  | [label] => label
  | label :: rest => label +:+ "." +:+ Join_dot rest
  end.

(** What [peer.FromContext(ctx)] finds: no peer, a peer whose
    [AuthInfo] is not [credentials.TLSInfo], or the verified chains of
    the TLS state. *)
Inductive Peer :=
| NoPeer
| OtherAuthInfo
| TLSInfo (VerifiedChains : list (list Certificate)).

(** [func getNamesFromContext(ctx context.Context) ([]string, error)] *)
Definition getNamesFromContext (ctx : Peer) : list string * option string :=
  match ctx with
  | NoPeer => ([], Some "no peer found")
  | OtherAuthInfo => ([], Some "unexpected peer transport credentials")
  | TLSInfo [] => ([], Some "could not verify peer certificate")
  | TLSInfo ([] :: _) => ([], Some "could not verify peer certificate")
  | TLSInfo ((cert :: _) :: _) => (Split_dot (Subject_CommonName cert), None)
  end.

(** [func getAgentNameFromContext(ctx context.Context) (string, error)];
    [None] is the panic of [names[0]] on an empty slice. *)
Definition getAgentNameFromContext (ctx : Peer) : option (string * option string) :=
  match getNamesFromContext ctx with
  | (_, Some err) => Some ("", Some err)
  | (names, None) =>
      match names with
      | name :: _ => Some (name, None)
      | [] => None
      end
  end.

(** [func healthcheck(w http.ResponseWriter, r *http.Request)] *)
Definition healthcheck (w0 : ResponseWriter) : option ResponseWriter :=
  let w1 := withHeader (Header_Set "content-type" "application/json" (rw_header w0)) w0 in
  let w2 := Write (bytesOf "{}") w1 in
  WriteHeader 200 w2.

(** The values a list of headers carries for the canonical name [key],
    in the order of the list. *)
Fixpoint valuesFor (key : string) (headers : list HttpHeader) : list string :=
  match headers with
  | [] => []
  | header :: rest =>
      if String.eqb (CanonicalMIMEHeaderKey (hh_Name header)) key
      then hh_Values header ++ valuesFor key rest
      else valuesFor key rest
  end.

(** No byte of the string is a dot. *)
Fixpoint dotFree (s : string) : bool :=
  match s with
  | EmptyString => true
  | String c rest => negb (Ascii.eqb c ".") && dotFree rest
  end.

End controller.


(* ===================================================================== *)
(** ** The agent's side of an HTTP request (its tunnel loop) *)
(* ===================================================================== *)

Module agentTunnel.
Import tunnel http.

(** [func makeHeaders(headers map[string][]string) []*tunnel.HttpHeader]
    of the agent: every header of the local reply. *)
Definition makeHeaders (headers : Header) : list HttpHeader :=
  (λ nv, mkHttpHeader nv.1 nv.2) <$> map_to_list headers.

(** The headers of the request the agent sends on, built on the empty
    header of [http.NewRequest]:
    [for _, header := range req.Headers {
       for _, value := range header.Values {
         httpRequest.Header.Add(header.Name, value) } }] *)
Definition requestHeader (req : HttpRequest) : Header :=
  controller.copyHeaders (req_Headers req) ∅.

End agentTunnel.

(* ===================================================================== *)
(** ** The agent's command runner (app/agent/command.go) *)
(* ===================================================================== *)

Module agent.
Import tunnel.

(** What [in.Read(buffer)] returns: the [n] bytes read, and the error. *)
Inductive ReadError :=
| EOF
| ReadFailed (e : string).

Record ReadResult := mkReadResult {
  rd_bytes : bytes;
  rd_err : option ReadError
}.

Record outputMessage := mkOutputMessage {
  channel : ChannelDirection;
  value : bytes;
  closed : bool
}.

Definition emptyBytes : bytes := [].

(** [func outputSender(channel, c chan *outputMessage, in io.Reader)]:
    the messages it puts on [c], given what the reads of [in] return. When
    the reads given are used up the sender is blocked in the next read. *)
Fixpoint outputSender (channel : ChannelDirection) (reads : list ReadResult)
    : list outputMessage :=
  match reads with
  | [] => []
  | rd :: rest =>
      let data := if (0 <? length (rd_bytes rd))%nat
                  then [mkOutputMessage channel (rd_bytes rd) false]
                  else [] in
      match rd_err rd with
      | Some EOF => data ++ [mkOutputMessage channel emptyBytes true]
      | Some (ReadFailed _) => data ++ [mkOutputMessage channel emptyBytes true]
      | None => data ++ outputSender channel rest
      end
  end.

(** [func makeCommandFailed(req, err, message)]; an error is the text of
    its [Error()], and [None] is [nil]. *)
Definition makeCommandFailed (req : CommandRequest) (err : option string)
    (message : string) : AgentToControllerWrapper :=
  let msg := match err with
             | Some e => message +:+ ": " +:+ e
             | None => message
             end in
  A2C_CommandTermination
    {| ct_Id := cr_Id req; ct_ExitCode := 127; ct_Message := msg |}.

(** [func makeCommandTermination(req, exitstatus)] *)
Definition makeCommandTermination (req : CommandRequest) (exitstatus : Z)
    : AgentToControllerWrapper :=
  A2C_CommandTermination
    {| ct_Id := cr_Id req; ct_ExitCode := exitstatus; ct_Message := "" |}.

(** [func makeCommandData(req, channel, data)] *)
Definition makeCommandData (req : CommandRequest) (channel : ChannelDirection)
    (data : bytes) : AgentToControllerWrapper :=
  A2C_CommandData
    {| cd_Id := cr_Id req; cd_Body := data; cd_Channel := channel; cd_Closed := false |}.

(** [func makeCommandDataClosed(req, channel)] *)
Definition makeCommandDataClosed (req : CommandRequest) (channel : ChannelDirection)
    : AgentToControllerWrapper :=
  A2C_CommandData
    {| cd_Id := cr_Id req; cd_Body := []; cd_Channel := channel; cd_Closed := true |}.

(** What [cmd.Wait()] returns: [nil], an [*exec.ExitError] (with the exit
    status of its [syscall.WaitStatus], when it has one), or another
    error. *)
Inductive WaitResult :=
| WaitNil
| WaitExitError (status : option Z)
| WaitError (e : string).

(** The child process as [runCommand] meets it: the errors of the two
    pipe calls and of [Start], the reads of the two pipes, the order in
    which the two senders get to put their messages on the aggregation
    channel ([true]: the STDOUT sender goes next), and the result of
    [Wait]. *)
Record Process := mkProcess {
  StdoutPipe_err : option string;
  StderrPipe_err : option string;
  Start_err : option string;
  stdoutReads : list ReadResult;
  stderrReads : list ReadResult;
  schedule : list bool;
  Wait_result : WaitResult
}.

(** Two senders on one unbuffered channel: the receiver sees the messages
    of each in its order, merged as the schedule says. A sender that has
    nothing to send leaves the turn to the other one. *)
Fixpoint interleave {A : Type} (sched : list bool) (l1 l2 : list A) : list A :=
  match sched with
  | [] => l1 ++ l2
  | true :: sched' =>
      match l1 with
      | x :: l1' => x :: interleave sched' l1' l2
      | [] => l2
      end
  | false :: sched' =>
      match l2 with
      | y :: l2' => y :: interleave sched' l1 l2'
      | [] => l1
      end
  end.

(** [for msg := range agg { ... }]: the frames put on [dataflow], and
    whether the loop was left by its [break]; the channel is never closed,
    so otherwise the loop is blocked in the receive. *)
Fixpoint aggregate (req : CommandRequest) (agg : list outputMessage)
    (activeCount : Z) : list AgentToControllerWrapper * bool :=
  match agg with
  | [] => ([], false)
  | msg :: rest =>
      if closed msg then
        let frame := makeCommandDataClosed req (channel msg) in
        let activeCount := activeCount - 1 in
        if activeCount =? 0 then ([frame], true)
        else
          let '(frames, broke) := aggregate req rest activeCount in
          (frame :: frames, broke)
      else
        let frame := makeCommandData req (channel msg) (value msg) in
        let '(frames, broke) := aggregate req rest activeCount in
        (frame :: frames, broke)
  end.

(** [if err := cmd.Wait(); err != nil { ... }] and the frame that follows. *)
Definition afterWait (req : CommandRequest) (wr : WaitResult) : AgentToControllerWrapper :=
  match wr with
  | WaitNil => makeCommandTermination req 0
  | WaitExitError (Some status) => makeCommandTermination req status
  | WaitExitError None => makeCommandTermination req 0
  | WaitError e => makeCommandFailed req (Some e) "Wait()"
  end.

(** [func runCommand(dataflow chan *tunnel.AgentToControllerWrapper, req)]:
    the frames it puts on [dataflow], in order. *)
Definition runCommand (req : CommandRequest) (p : Process) : list AgentToControllerWrapper :=
  match StdoutPipe_err p with
  | Some err => [makeCommandFailed req (Some err) "StdoutPipe()"]
  | None =>
      match StderrPipe_err p with
      | Some err => [makeCommandFailed req (Some err) "StderrPipe()"]
      | None =>
          match Start_err p with
          | Some err => [makeCommandFailed req (Some err) "Start()"]
          | None =>
              let agg := interleave (schedule p)
                           (outputSender STDOUT (stdoutReads p))
                           (outputSender STDERR (stderrReads p)) in
              let '(frames, broke) := aggregate req agg 2 in
              if broke then frames ++ [afterWait req (Wait_result p)]
              else frames
          end
      end
  end.

(** The process was started: none of the three calls failed. *)
Definition started (p : Process) : bool :=
  match StdoutPipe_err p, StderrPipe_err p, Start_err p with
  | None, None, None => true
  | _, _, _ => false
  end.

(** The reads of a pipe come to an end: one of them returns an error,
    [io.EOF] or another. *)
Definition ends (reads : list ReadResult) : bool :=
  existsb (λ rd, match rd_err rd with Some _ => true | None => false end) reads.

Definition isClosedFrame (c : ChannelDirection) (f : AgentToControllerWrapper) : bool :=
  match f with
  | A2C_CommandData d => cd_Closed d && ChannelDirection_eqb (cd_Channel d) c
  | _ => false
  end.

Definition isTermination (f : AgentToControllerWrapper) : bool :=
  match f with
  | A2C_CommandTermination _ => true
  | _ => false
  end.

Definition isCommandData (f : AgentToControllerWrapper) : bool :=
  match f with
  | A2C_CommandData _ => true
  | _ => false
  end.

Fixpoint countIf {A : Type} (p : A -> bool) (l : list A) : nat :=
  match l with
  | [] => 0%nat
  | x :: l' => ((if p x then 1 else 0) + countIf p l')%nat
  end.

(** The frame the loop of [runCommand] puts on [dataflow] for a message of
    the aggregation channel. *)
Definition toFrame (req : CommandRequest) (msg : outputMessage) : AgentToControllerWrapper :=
  if closed msg then makeCommandDataClosed req (channel msg)
  else makeCommandData req (channel msg) (value msg).

Definition closedOn (c : ChannelDirection) (msg : outputMessage) : bool :=
  closed msg && ChannelDirection_eqb (channel msg) c.


(** The [Id] a frame carries, for the frames of a command. *)
Definition frameId (f : AgentToControllerWrapper) : option string :=
  match f with
  | A2C_CommandData d => Some (cd_Id d)
  | A2C_CommandTermination t => Some (ct_Id t)
  | _ => None
  end.

(** The data frames of one channel, in the order they were sent. *)
Definition onChannel (c : ChannelDirection) (f : AgentToControllerWrapper) : bool :=
  match f with
  | A2C_CommandData d => ChannelDirection_eqb (cd_Channel d) c
  | _ => false
  end.

(** The bytes the data frames of channel [c] carry, in order. *)
Fixpoint channelBytes (c : ChannelDirection) (frames : list AgentToControllerWrapper)
    : bytes :=
  match frames with
  | [] => []
  | A2C_CommandData d :: rest =>
      if ChannelDirection_eqb (cd_Channel d) c
      then cd_Body d ++ channelBytes c rest
      else channelBytes c rest
  | _ :: rest => channelBytes c rest
  end.

(** The bytes a pipe delivers before its reads come to an end: those of
    every read up to the first one that returns an error, that one
    included. *)
Fixpoint bytesRead (reads : list ReadResult) : bytes :=
  match reads with
  | [] => []
  | rd :: rest =>
      match rd_err rd with
      | Some _ => rd_bytes rd
      | None => rd_bytes rd ++ bytesRead rest
      end
  end.

(** The frames of channel [c] among [frames], in order. *)
Fixpoint framesOn (c : ChannelDirection) (frames : list AgentToControllerWrapper)
    : list AgentToControllerWrapper :=
  match frames with
  | [] => []
  | f :: rest => if onChannel c f then f :: framesOn c rest else framesOn c rest
  end.

End agent.

(* ===================================================================== *)
(** ** The command tool (app/remote-command/main.go) *)
(* ===================================================================== *)

Module cmdtool.
Import tunnel.

(** What [stream.Recv()] returns. *)
Inductive Recv :=
| RecvMsg (msg : ControllerToCmdToolWrapper)
| RecvEOF
| RecvError (e : string).

(** What the tool has written to its two file descriptors; the lines of
    the [log] package are not part of it. *)
Record Output := mkOutput {
  Stdout : bytes;
  Stderr : bytes
}.

(** How the tool ends: [os.Exit(code)], a [log.Fatalf], or not yet,
    blocked in [stream.Recv()]. *)
Inductive Ending :=
| Exit (code : Z) (o : Output)
| Fatal (o : Output)
| Receiving (o : Output).

(** [case *tunnel.ControllerToCmdToolWrapper_CommandData:] *)
Definition onCommandData (req : CmdToolCommandData) (o : Output) : Output :=
  if ChannelDirection_eqb (tcd_Channel req) STDOUT
  then {| Stdout := Stdout o ++ tcd_Body req; Stderr := Stderr o |}
  else {| Stdout := Stdout o; Stderr := Stderr o ++ tcd_Body req |}.

(** [case *tunnel.ControllerToCmdToolWrapper_CommandTermination:] *)
Definition onCommandTermination (req : CmdToolCommandTermination) (o : Output) : Ending :=
  let o1 := if (0 <? String.length (tct_Message req))%nat
            then {| Stdout := Stdout o;
                    Stderr := Stderr o ++ bytesOf (tct_Message req +:+ String "010"%char EmptyString) |}
            else o in
  Exit (tct_ExitCode req) o1.

(** The receive loop of [runCommand]; the wrapper has no event other
    than the two handled and the unset one. After [io.EOF] the tool
    closes its side and ends in [log.Fatalf]. *)
Fixpoint runCommand (stream : list Recv) (o : Output) : Ending :=
  match stream with
  | [] => Receiving o
  | RecvEOF :: _ => Fatal o
  | RecvError _ :: _ => Fatal o
  | RecvMsg (C2T_CommandData req) :: rest => runCommand rest (onCommandData req o)
  | RecvMsg (C2T_CommandTermination req) :: _ => onCommandTermination req o
  | RecvMsg C2T_nil :: rest => runCommand rest o
  end.

Definition start : Output := {| Stdout := []; Stderr := [] |}.

(** The bytes of the data frames among [msgs] that go to [os.Stdout]. *)
Fixpoint stdoutBytes (msgs : list ControllerToCmdToolWrapper) : bytes :=
  match msgs with
  | [] => []
  | C2T_CommandData d :: rest =>
      if ChannelDirection_eqb (tcd_Channel d) STDOUT
      then tcd_Body d ++ stdoutBytes rest
      else stdoutBytes rest
  | _ :: rest => stdoutBytes rest
  end.

(** The bytes of the data frames among [msgs] that go to [os.Stderr]. *)
Fixpoint stderrBytes (msgs : list ControllerToCmdToolWrapper) : bytes :=
  match msgs with
  | [] => []
  | C2T_CommandData d :: rest =>
      if ChannelDirection_eqb (tcd_Channel d) STDOUT
      then stderrBytes rest
      else tcd_Body d ++ stderrBytes rest
  | _ :: rest => stderrBytes rest
  end.

Definition notTermination (msg : ControllerToCmdToolWrapper) : bool :=
  match msg with
  | C2T_CommandTermination _ => false
  | _ => true
  end.

(** What [fmt.Fprintf(os.Stderr, "%s\n", req.Message)] writes, when the
    message is not empty. *)
Definition messageLine (message : string) : bytes :=
  if (0 <? String.length message)%nat
  then bytesOf (message +:+ String "010"%char EmptyString)
  else [].


(** [strings.Contains(value, "=")] *)
Definition Contains_eq (value : string) : bool :=
  existsb (Ascii.eqb "="%char) (list_ascii_of_string value).

(** [func (i *environment) Set(value string) error]: the list after the
    call, or the error, the list then left as it was. *)
Definition environment_Set (value : string) (i : list string) : list string + string :=
  if negb (Contains_eq value) then inr "syntax: NAME=value"
  else inl (i ++ [value]).

(** One [Set] for each [--env] on the command line, in order; flag
    parsing stops at the first error. *)
Fixpoint parseEnv (values : list string) (i : list string) : list string + string :=
  match values with
  | [] => inl i
  | value :: rest =>
      match environment_Set value i with
      | inl i' => parseEnv rest i'
      | inr err => inr err
      end
  end.

Definition isExit (e : Ending) : bool :=
  match e with Exit _ _ => true | _ => false end.

Definition outputOf (e : Ending) : Output :=
  match e with Exit _ o | Fatal o | Receiving o => o end.

End cmdtool.


(* ===================================================================== *)
(** * Properties *)
(* ===================================================================== *)

(** ** The control API *)

Section ControlAPI.
Import ca cncserver.

Variable commonNameOf : CertificateName -> string.
Variables caCert freshKey controlURL : string.

Let authority := GenerateCertificate commonNameOf caCert freshKey.

(** A control handler behind the gate is reached only with a certificate
    whose purpose is control. *)
Lemma authenticate_passes_only_control {B A : Type} (method : string)
    (h : Request B -> Reply A) (m : string) (cert : Certificate)
    (rest : list Certificate) (body : option B) (names : CertificateName) :
  encodedName cert = Some names ->
  cn_Purpose names <> CertificatePurposeControl ->
  exists err,
    authenticate method h
      {| Method := m; PeerCertificates := cert :: rest; decoded := body |}
    = FailRequest err (if String.eqb m method then StatusForbidden
                       else StatusMethodNotAllowed).
Proof.
  intros Hn Hp. unfold authenticate, GetCertificateNameFromCert. simpl.
  destruct (String.eqb m method); simpl; [| eauto].
  rewrite Hn. destruct (cn_Purpose names); simpl; eauto. congruence.
Qed.

(** C1, as the code has it: for a body [{name}] the handler answers with
    a certificate whose name carries [name] and the purpose agent, not
    control; presented to the gate of the control API, that certificate
    is refused with 403 Forbidden, whatever the handler behind the gate. *)
Theorem generateControlCredentials_issues_agent_purpose
    (name m : string) (certs : list Certificate) :
  let issuedName := {| cn_Name := name; cn_Type := ""; cn_Agent := "";
                       cn_Purpose := CertificatePurposeAgent |} in
  let cert := {| Subject_CommonName := commonNameOf issuedName;
                 encodedName := Some issuedName |} in
  generateControlCredentials authority controlURL
    {| Method := m; PeerCertificates := certs;
       decoded := Some {| ccr_Name := name |} |}
  = Wrote {| ccresp_Name := name; ccresp_URL := controlURL;
             ccresp_Certificate := cert; ccresp_Key := freshKey;
             ccresp_CACert := caCert |}
  /\ GetCertificateNameFromCert cert = inl issuedName
  /\ cn_Purpose issuedName <> CertificatePurposeControl
  /\ forall (B A : Type) (h : Request B -> Reply A) (body : option B),
       authenticate "POST" h
         {| Method := "POST"; PeerCertificates := [cert]; decoded := body |}
       = FailRequest "certificate is not authorized for 'control': agent"
                     StatusForbidden.
Proof.
  repeat split; try reflexivity. discriminate.
Qed.

End ControlAPI.

(** ** Identity on the service listener *)

Section ServiceIdentity.
Import ca http controller.

Variable ValidateJWT : string -> option (string * string * string).

Lemma extractEndpointFromCert_found (r0 : Request) a t n :
  extractEndpointFromCert r0 = (a, t, n, true) ->
  exists cert rest names,
    PeerCertificates r0 = cert :: rest
    /\ encodedName cert = Some names
    /\ cn_Purpose names = CertificatePurposeService
    /\ (a, t, n) = (cn_Agent names, cn_Type names, cn_Name names).
Proof.
  unfold extractEndpointFromCert, GetCertificateNameFromCert.
  destruct (PeerCertificates r0) as [|cert rest]; [discriminate|].
  destruct (encodedName cert) as [names|] eqn:Hn; [|discriminate].
  destruct (cn_Purpose names) eqn:Hp; simpl; try discriminate.
  intros [= <- <- <-]. exists cert, rest, names. repeat split; auto.
Qed.

Lemma extractEndpointFromCert_not_found (r0 : Request) a t n :
  extractEndpointFromCert r0 = (a, t, n, false) ->
  (a, t, n) = ("", "", "")
  /\ (PeerCertificates r0 = []
      \/ exists cert rest,
           PeerCertificates r0 = cert :: rest
           /\ (encodedName cert = None
               \/ exists names, encodedName cert = Some names
                    /\ cn_Purpose names <> CertificatePurposeService)).
Proof.
  unfold extractEndpointFromCert, GetCertificateNameFromCert.
  destruct (PeerCertificates r0) as [|cert rest].
  - intros [= <- <- <-]. auto.
  - destruct (encodedName cert) as [names|] eqn:Hn.
    + destruct (cn_Purpose names) eqn:Hp; simpl; try discriminate;
        intros [= <- <- <-]; split; auto; right; exists cert, rest;
        split; auto; right; exists names; split; auto; congruence.
    + intros [= <- <- <-]. split; auto. right. exists cert, rest. auto.
Qed.

(** When the certificate gives no identity, [extractEndpoint] is the JWT
    path. *)
Lemma extractEndpoint_falls_back (r0 : Request) a t n :
  extractEndpointFromCert r0 = (a, t, n, false) ->
  extractEndpoint ValidateJWT r0 =
    match extractEndpointFromJWT ValidateJWT r0 with
    | (a', t', n', true) => inl (a', t', n')
    | (_, _, _, false) => inr "no valid credentials or JWT found"
    end.
Proof.
  intros H. unfold extractEndpoint. rewrite H.
  destruct (extractEndpointFromJWT ValidateJWT r0) as [[[a' t'] n'] []]; reflexivity.
Qed.

(** C10: a request with a service-purpose certificate first among its
    verified peer certificates gets the (agentName, type, name) of that
    certificate, whatever its Basic credentials are and whatever the JWT
    validation would answer; and the outcome of [extractEndpoint] is that
    of the JWT path exactly when the certificate gives nothing, which is
    when there is no peer certificate, its CN does not parse, or its
    purpose is not service. *)
Theorem extractEndpoint_certificate_first :
  (forall m uri hdr body cn rest auth agentName type name,
      extractEndpoint ValidateJWT
        {| Method := m; RequestURI := uri; Header_ := hdr; Body := body;
           PeerCertificates :=
             {| Subject_CommonName := cn;
                encodedName := Some {| cn_Name := name; cn_Type := type;
                                       cn_Agent := agentName;
                                       cn_Purpose := CertificatePurposeService |} |}
             :: rest;
           BasicAuth := auth |}
      = inl (agentName, type, name))
  /\ (forall r0 : Request,
        (extractEndpointFromCert r0).2 = false <->
        (PeerCertificates r0 = []
         \/ exists cert rest,
              PeerCertificates r0 = cert :: rest
              /\ (encodedName cert = None
                  \/ exists names, encodedName cert = Some names
                       /\ cn_Purpose names <> CertificatePurposeService)))
  /\ (forall r0 : Request,
        (extractEndpointFromCert r0).2 = false ->
        extractEndpoint ValidateJWT r0 =
          match extractEndpointFromJWT ValidateJWT r0 with
          | (a, t, n, true) => inl (a, t, n)
          | (_, _, _, false) => inr "no valid credentials or JWT found"
          end)
  /\ (forall r0 : Request,
        (extractEndpointFromCert r0).2 = true ->
        extractEndpoint ValidateJWT r0 =
          inl ((extractEndpointFromCert r0).1.1.1,
               (extractEndpointFromCert r0).1.1.2,
               (extractEndpointFromCert r0).1.2)).
Proof.
  split; [reflexivity|]. split; [|split].
  - intros r0. split.
    + destruct (extractEndpointFromCert r0) as [[[a t] n] b] eqn:H. simpl.
      intros ->. apply extractEndpointFromCert_not_found in H. tauto.
    + unfold extractEndpointFromCert, GetCertificateNameFromCert.
      intros [-> | (cert & rest & -> & [-> | (names & -> & Hp)])]; try reflexivity.
      destruct (cn_Purpose names); simpl; congruence.
  - intros r0. destruct (extractEndpointFromCert r0) as [[[a t] n] b] eqn:H.
    simpl. intros ->. eapply extractEndpoint_falls_back; eauto.
  - intros r0. unfold extractEndpoint.
    destruct (extractEndpointFromCert r0) as [[[a t] n] b]. simpl.
    intros ->. reflexivity.
Qed.

End ServiceIdentity.

(** ** The service handler without an identity *)

Section ServiceHandler.
Import ca http controller.

Variable ValidateJWT : string -> option (string * string * string).
Variable httpError : string -> bytes.
Variable transactionID : string.
Variable Send : AgentSearch -> tunnel.HttpRequest -> option string.
Variable SendToAgent : string -> tunnel.HttpRequest -> bool.

(** With a code of three digits [WriteHeader] does not panic. *)
Lemma WriteHeader_valid (code : Z) (w0 : ResponseWriter) :
  checkWriteHeaderCode code = true ->
  WriteHeader code w0 = Some (sendHeader code w0).
Proof.
  intros H. unfold WriteHeader, sendHeader. rewrite H.
  destruct (rw_wroteHeader w0); reflexivity.
Qed.

Lemma callWriteHeader_valid (code : Z) (st : Handler)
    (k : ResponseWriter -> Turn) :
  checkWriteHeaderCode code = true ->
  callWriteHeader code st k = k (sendHeader code (w st)).
Proof. intros H. unfold callWriteHeader. rewrite WriteHeader_valid by exact H. reflexivity. Qed.

(** A [Write] on a writer whose status line is not out yet sends 200
    first, and the [WriteHeader] after it sends nothing. *)
Lemma Write_then_WriteHeader (h : Header) (b : bytes) (code : Z) :
  WriteHeader code (Write b (freshWriter h))
  = Some {| rw_header := h; rw_wroteHeader := true;
            rw_sent := [SentHeader StatusOK h; SentBody b] |}.
Proof. reflexivity. Qed.

(** Without an identity nothing is put on any agent's session, and the
    reply is the error body under the status line of the first write. *)
Lemma serviceAPIHandler_no_identity (h : Header) (r0 : Request)
    (out : list Recv) (err : string) :
  extractEndpoint ValidateJWT r0 = inr err ->
  serviceAPIHandler ValidateJWT httpError transactionID Send (freshWriter h) r0 out
  = {| outcome := Returned
         {| w := {| rw_header := h; rw_wroteHeader := true;
                    rw_sent := [SentHeader StatusOK h; SentBody (httpError err)] |};
            r := r0; seenHeader := false; isChunked := false; cleanClose := false |};
       dispatched := [] |}.
Proof. intros H. unfold serviceAPIHandler. rewrite H. reflexivity. Qed.

(** C2, as the code has it: for a request with no peer certificate and no
    Basic credentials [extractEndpoint] fails, nothing is dispatched to
    any agent, and the handler returns; but it writes the error body
    before it sets the status, so the status line that goes out is
    200 OK and the 400 of the later [WriteHeader] is never sent. *)
Theorem serviceAPIHandler_no_identity_sends_200
    (m uri : string) (hdr : Header) (body : bytes) (out : list Recv) :
  let r0 := {| Method := m; RequestURI := uri; Header_ := hdr; Body := body;
               PeerCertificates := []; BasicAuth := None |} in
  let served := serviceAPIHandler ValidateJWT httpError transactionID Send
                  newResponseWriter r0 out in
  extractEndpoint ValidateJWT r0 = inr "no valid credentials or JWT found"
  /\ dispatched served = []
  /\ hasReturned (outcome served) = true
  /\ rw_sent (w (stateOf (outcome served)))
     = [SentHeader StatusOK ∅;
        SentBody (httpError "no valid credentials or JWT found")]
  /\ statusOf (rw_sent (w (stateOf (outcome served)))) = Some 200
  /\ statusOf (rw_sent (w (stateOf (outcome served)))) <> Some StatusBadRequest.
Proof.
  cbv zeta. repeat split; try reflexivity. discriminate.
Qed.

(** ** The response loop *)


(** The values of one header are added under its canonical name, after
    the ones that are there; a header without values adds nothing. *)
Lemma addValues_lookup (name key : string) (values : list string) :
  forall h : Header,
    foldl (λ h value, Header_Add name value h) h values !! key
    = if String.eqb (CanonicalMIMEHeaderKey name) key
      then match values with
           | [] => h !! key
           | _ :: _ => Some (default [] (h !! key) ++ values)
           end
      else h !! key.
Proof.
  induction values as [|v values IH]; intros h; simpl.
  - destruct (String.eqb _ key); reflexivity.
  - rewrite IH. unfold Header_Add.
    destruct (String.eqb (CanonicalMIMEHeaderKey name) key) eqn:He.
    + apply String.eqb_eq in He. subst key. rewrite lookup_insert_eq. simpl.
      destruct values as [|v' values]; [reflexivity|].
      rewrite <- app_assoc. reflexivity.
    + apply String.eqb_neq in He. rewrite lookup_insert_ne by exact He. reflexivity.
Qed.

(** The header map after the agent's headers were copied onto [h]. *)
Lemma copyHeaders_onto (headers : list tunnel.HttpHeader) :
  forall (h : Header) (key : string),
    copyHeaders headers h !! key
    = match valuesFor key headers with
      | [] => h !! key
      | values => Some (default [] (h !! key) ++ values)
      end.
Proof.
  induction headers as [|header headers IH]; intros h key; [reflexivity|].
  unfold copyHeaders in *. simpl. rewrite IH, addValues_lookup.
  destruct (String.eqb (CanonicalMIMEHeaderKey (tunnel.hh_Name header)) key);
    [|reflexivity].
  destruct (tunnel.hh_Values header) as [|v vs]; simpl; [reflexivity|].
  destruct (valuesFor key headers); simpl.
  - rewrite app_nil_r. reflexivity.
  - rewrite <- app_assoc. reflexivity.
Qed.

(** On an empty header map the copying loop leaves, under each canonical
    name, the values the agent's headers carry for it, and no other
    name. *)
Lemma copyHeaders_on_empty (headers : list tunnel.HttpHeader) (key : string) :
  copyHeaders headers ∅ !! key
  = match valuesFor key headers with
    | [] => None
    | values => Some values
    end.
Proof.
  rewrite copyHeaders_onto, lookup_empty.
  destruct (valuesFor key headers); reflexivity.
Qed.

End ServiceHandler.

Section ResponseLoop.
Import tunnel http controller.

Lemma bodyOf_app (l1 l2 : list Sent) : bodyOf (l1 ++ l2) = bodyOf l1 ++ bodyOf l2.
Proof.
  induction l1 as [|[code hd|b|] l1 IH]; simpl; auto.
  rewrite IH. apply app_assoc.
Qed.

Lemma bodyOf_written (flush : bool) (bodies : list bytes) :
  bodyOf (written flush bodies) = concat bodies.
Proof.
  induction bodies as [|b bodies IH]; simpl; auto.
  rewrite bodyOf_app, IH. destruct flush; simpl; rewrite app_nil_r; auto.
Qed.

Lemma written_app (flush : bool) (l1 l2 : list bytes) :
  written flush (l1 ++ l2) = written flush l1 ++ written flush l2.
Proof. unfold written. apply flat_map_app. Qed.

(** Once the header is out, the chunks with a body among a run of such
    frames are written in order, each flushed at once when the response
    is chunked, and the loop goes on with what follows. *)
Lemma responseLoop_chunks (msgs : list AgentToControllerWrapper) :
  forall (st : Handler) (rest : list Recv),
    seenHeader st = true ->
    rw_wroteHeader (w st) = true ->
    forallb keepsGoing msgs = true ->
    responseLoop (map RecvMsg msgs ++ rest) st
    = responseLoop rest (afterChunks st (chunkBodies msgs)).
Proof.
  induction msgs as [|msg msgs IH]; intros st rest Hs Hw Hne;
    destruct st as [[hd wh snt] r0 sh ic cc]; simpl in Hs, Hw; subst.
  - unfold afterChunks, written. simpl. rewrite app_nil_r. reflexivity.
  - simpl in Hne. apply andb_true_iff in Hne as [Hc Hcs].
    destruct msg as [ts|resp|c| |d|t|]; try discriminate;
      try (cbn [map app responseLoop onMessage chunkBodies];
           rewrite IH by auto; reflexivity).
    unfold keepsGoing, nonEmptyChunk in Hc. apply negb_true_iff in Hc.
    cbn [map app responseLoop onMessage chunkBodies].
    unfold onHttpChunkedResponse. cbn [seenHeader negb chunk_Body]. rewrite Hc.
    destruct ic; cbn; rewrite IH by auto; unfold afterChunks; cbn;
      rewrite <- ?app_assoc; reflexivity.
Qed.


Lemma responseLoop_response (h : Header) (r0 : Request) (resp : HttpResponse)
    (rest : list Recv) :
  checkWriteHeaderCode (resp_Status resp) = true ->
  resp_ContentLength resp <> 0 ->
  responseLoop (RecvMsg (A2C_HttpResponse resp) :: rest)
    (enterLoop (freshWriter h) r0)
  = responseLoop rest (afterResponse h r0 resp).
Proof.
  intros Hv H. cbn [responseLoop onMessage]. unfold onHttpResponse.
  rewrite callWriteHeader_valid by exact Hv.
  apply Z.eqb_neq in H. rewrite H. reflexivity.
Qed.

(** An [HttpResponse] without body on a new writer: the status line and
    the headers go out and the handler returns with a clean close. *)
Lemma responseLoop_response_no_body (h : Header) (r0 : Request)
    (resp : HttpResponse) (rest : list Recv) :
  checkWriteHeaderCode (resp_Status resp) = true ->
  resp_ContentLength resp = 0 ->
  responseLoop (RecvMsg (A2C_HttpResponse resp) :: rest)
    (enterLoop (freshWriter h) r0)
  = Returned {| w := {| rw_header := copyHeaders (resp_Headers resp) h;
                        rw_wroteHeader := true;
                        rw_sent := [SentHeader (resp_Status resp)
                                      (copyHeaders (resp_Headers resp) h)] |};
                r := withRequestHeader
                       (foldr Header_Del (Header_ r0) (Header_keys h)) r0;
                seenHeader := true; isChunked := false; cleanClose := true |}.
Proof.
  intros Hv H. cbn [responseLoop onMessage]. unfold onHttpResponse.
  rewrite callWriteHeader_valid by exact Hv. rewrite H. reflexivity.
Qed.


(** An empty-body chunk after the header ends the transaction cleanly. *)
Lemma responseLoop_terminator (st : Handler) (id : string) (rest : list Recv) :
  seenHeader st = true ->
  responseLoop (chunkFrame (mkHttpChunkedResponse id []) :: rest) st
  = Returned {| w := w st; r := r st; seenHeader := seenHeader st;
                isChunked := isChunked st; cleanClose := true |}.
Proof.
  intros Hs. simpl. unfold onHttpChunkedResponse. rewrite Hs. reflexivity.
Qed.

(** The mailbox closing after the header ends the transaction cleanly,
    nothing more sent. *)
Lemma responseLoop_closed (st : Handler) (rest : list Recv) :
  seenHeader st = true ->
  responseLoop (RecvClosed :: rest) st
  = Returned {| w := w st; r := r st; seenHeader := seenHeader st;
                isChunked := isChunked st; cleanClose := true |}.
Proof.
  intros Hs. cbn [responseLoop]. unfold onClosed. rewrite Hs. reflexivity.
Qed.










End ResponseLoop.

Section ChunkedResponses.
Import tunnel http controller.

(** The claim of C5 at two inputs. After [HttpResponse{contentLength=-1}]
    and the chunk [a], a second [HttpResponse] with [contentLength = 0]
    ends the transaction: the chunk [bc] that follows, before the empty
    one, is never written, and the body upstream is [a], not [abc]. An
    [HttpResponse] with [contentLength = 0] and the status 0 makes
    [WriteHeader] panic: neither status nor headers are written. *)
Lemma second_response_cuts_the_body :
  let r0 := http.mkRequest "GET" "/api" ∅ [] [] None in
  let chunk := λ s, chunkFrame (mkHttpChunkedResponse "t" (bytesOf s)) in
  let o := responseLoop [RecvMsg (A2C_HttpResponse (mkHttpResponse "t" 200 [] (-1)));
                         chunk "a";
                         RecvMsg (A2C_HttpResponse (mkHttpResponse "t" 200 [] 0));
                         chunk "bc"; chunk ""]
             (enterLoop newResponseWriter r0) in
  let o0 := responseLoop [RecvMsg (A2C_HttpResponse (mkHttpResponse "t" 0 [] 0))]
              (enterLoop newResponseWriter r0) in
  hasReturned o = true
  /\ bodyOf (rw_sent (w (stateOf o))) = bytesOf "a"
  /\ bodyOf (rw_sent (w (stateOf o))) <> bytesOf "abc"
  /\ hasPanicked o0 = true
  /\ rw_sent (w (stateOf o0)) = [].
Proof. vm_compute. repeat split; try reflexivity. discriminate. Qed.

(** C5, amended: for a sequence of frames that begins with an
    [HttpResponse] whose status code has three digits and holds no
    further [HttpResponse], on the writer net/http hands to the handler:
    with [contentLength = 0] the handler sends the status and the
    agent's headers and returns, nothing of a body written, whatever
    follows; with [contentLength < 0] the bodies of the chunk frames that
    follow, up to the first empty one, go upstream in arrival order, each
    written and flushed at once, and the empty one ends the transaction
    (frames that are neither a response nor a chunk are passed over). *)
Theorem response_then_chunks (r0 : Request) :
  let st0 := enterLoop newResponseWriter r0 in
  (forall (id0 : string) (status : Z) (headers : list HttpHeader)
          (rest0 : list Recv),
      checkWriteHeaderCode status = true ->
      exists (sentHeaders : Header) (st : Handler),
        (forall key,
            sentHeaders !! key
            = match valuesFor key headers with
              | [] => None
              | values => Some values
              end)
        /\ responseLoop
             (RecvMsg (A2C_HttpResponse (mkHttpResponse id0 status headers 0))
                :: rest0) st0
           = Returned st
        /\ cleanClose st = true
        /\ rw_sent (w st) = [SentHeader status sentHeaders]
        /\ bodyOf (rw_sent (w st)) = [])
  /\ (forall (resp : HttpResponse) (msgs : list AgentToControllerWrapper)
             (id : string) (rest : list Recv),
        checkWriteHeaderCode (resp_Status resp) = true ->
        resp_ContentLength resp < 0 ->
        forallb keepsGoing msgs = true ->
        exists (sentHeaders : Header) (st : Handler),
          (forall key,
              sentHeaders !! key
              = match valuesFor key (resp_Headers resp) with
                | [] => None
                | values => Some values
                end)
          /\ responseLoop (RecvMsg (A2C_HttpResponse resp) :: map RecvMsg msgs
                             ++ chunkFrame (mkHttpChunkedResponse id []) :: rest) st0
             = Returned st
          /\ cleanClose st = true
          /\ rw_sent (w st)
             = SentHeader (resp_Status resp) sentHeaders
                 :: flat_map (λ b, [SentBody b; Flushed]) (chunkBodies msgs)
          /\ bodyOf (rw_sent (w st)) = concat (chunkBodies msgs)).
Proof.
  cbv zeta. change newResponseWriter with (freshWriter ∅). split.
  - intros id0 status headers rest0 Hv0.
    exists (copyHeaders headers ∅). eexists.
    split; [intros key; apply copyHeaders_on_empty|].
    rewrite responseLoop_response_no_body by (auto; reflexivity).
    split; [reflexivity|]. simpl. auto.
  - intros resp msgs id rest Hv Hneg Hne.
    assert (Hnz : resp_ContentLength resp <> 0) by lia.
    assert (Hch : (resp_ContentLength resp <? 0) = true) by (apply Z.ltb_lt; lia).
    exists (copyHeaders (resp_Headers resp) ∅). eexists.
    split; [intros key; apply copyHeaders_on_empty|].
    rewrite responseLoop_response, responseLoop_chunks by auto.
    rewrite responseLoop_terminator by reflexivity.
    split; [reflexivity|]. simpl. rewrite Hch.
    repeat split; auto. apply (bodyOf_written true).
Qed.

(** Scenario S2: [HttpResponse{status 200, contentLength=-1}] with a
    content type, then chunks [a], [bc] and the empty one: status 200,
    body [abc], each chunk flushed. *)
Lemma response_then_chunks_witness :
  let r0 := http.mkRequest "GET" "/api" ∅ [] [] None in
  let resp := mkHttpResponse "t" 200
                [mkHttpHeader "content-type" ["text/plain"]] (-1) in
  let msgs := [A2C_HttpChunkedResponse (mkHttpChunkedResponse "t" (bytesOf "a"));
               A2C_HttpChunkedResponse (mkHttpChunkedResponse "t" (bytesOf "bc"))] in
  checkWriteHeaderCode (resp_Status resp) = true
  /\ resp_ContentLength resp < 0
  /\ forallb keepsGoing msgs = true
  /\ exists (sentHeaders : Header) (st : Handler),
       sentHeaders !! "Content-Type" = Some ["text/plain"]
       /\ responseLoop [RecvMsg (A2C_HttpResponse resp);
                        chunkFrame (mkHttpChunkedResponse "t" (bytesOf "a"));
                        chunkFrame (mkHttpChunkedResponse "t" (bytesOf "bc"));
                        chunkFrame (mkHttpChunkedResponse "t" [])]
            (enterLoop newResponseWriter r0)
          = Returned st
       /\ cleanClose st = true
       /\ rw_sent (w st)
          = [SentHeader 200 sentHeaders; SentBody (bytesOf "a"); Flushed;
             SentBody (bytesOf "bc"); Flushed]
       /\ bodyOf (rw_sent (w st)) = bytesOf "abc".
Proof.
  cbv zeta. split; [reflexivity|]. split; [reflexivity|]. split; [reflexivity|].
  destruct (response_then_chunks (http.mkRequest "GET" "/api" ∅ [] [] None))
    as (_ & Hchunked).
  destruct (Hchunked
              (mkHttpResponse "t" 200 [mkHttpHeader "content-type" ["text/plain"]] (-1))
              [A2C_HttpChunkedResponse (mkHttpChunkedResponse "t" (bytesOf "a"));
               A2C_HttpChunkedResponse (mkHttpChunkedResponse "t" (bytesOf "bc"))]
              "t" [] eq_refl eq_refl eq_refl)
    as (sentHeaders & st & Hk & Hs).
  exists sentHeaders, st. split; [rewrite Hk; vm_compute; reflexivity|].
  exact Hs.
Defined.

Variable ValidateJWT : string -> option (string * string * string).
Variable httpError : string -> bytes.
Variable transactionID : string.
Variable Send : AgentSearch -> HttpRequest -> option string.
Variable SendToAgent : string -> HttpRequest -> bool.

(** C6: when the first frame of a transaction is an
    [HttpChunkedResponse], no [HttpResponse] seen yet, the loop sends 502
    Bad Gateway and returns; nothing of the chunk's body is written, and
    no later frame is looked at. This is so in [runAPIHandler] whenever a
    session took the request, in [serviceAPIHandler] for every request an
    identity is extracted from, by certificate or by token, and in
    [kubernetesAPIHandler] for every request with a peer certificate. *)
Theorem chunk_before_response_is_502
    (h : Header) (r0 : Request) (c : HttpChunkedResponse) (rest : list Recv) :
  let out := chunkFrame c :: rest in
  let st := {| w := {| rw_header := h; rw_wroteHeader := true;
                       rw_sent := [SentHeader StatusBadGateway h] |};
               r := r0; seenHeader := false; isChunked := false;
               cleanClose := false |} in
  let forwarded := λ type name : string,
        {| req_Id := transactionID; req_Name := name; req_Type := type;
           req_Method := Method r0; req_URI := RequestURI r0;
           req_Headers := makeHeaders (Header_ r0); req_Body := Body r0 |} in
  responseLoop out (enterLoop (freshWriter h) r0) = Returned st
  /\ (forall ep sessionID,
        Send ep (forwarded (as_EndpointType ep) (as_EndpointName ep))
        = Some sessionID ->
        outcome (runAPIHandler transactionID Send ep (freshWriter h) r0 out)
        = Returned st)
  /\ (forall agentName type name sessionID,
        extractEndpoint ValidateJWT r0 = inl (agentName, type, name) ->
        Send {| as_Name := agentName; as_EndpointType := type;
                as_EndpointName := name; as_Session := "" |}
             (forwarded type name)
        = Some sessionID ->
        outcome (serviceAPIHandler ValidateJWT httpError transactionID Send
                   (freshWriter h) r0 out)
        = Returned st)
  /\ (forall cert certs,
        PeerCertificates r0 = cert :: certs ->
        SendToAgent (firstLabel (ca.Subject_CommonName cert))
          (forwarded "kubernetes" "")
        = true ->
        outcome <$> kubernetesAPIHandler transactionID SendToAgent
                      (freshWriter h) r0 out
        = Some (Returned st))
  /\ statusOf (rw_sent (w st)) = Some 502
  /\ bodyOf (rw_sent (w st)) = [].
Proof.
  intros out st forwarded.
  assert (Hl : responseLoop out (enterLoop (freshWriter h) r0) = Returned st)
    by reflexivity.
  split; [exact Hl|].
  split; [intros ep sid HS; unfold runAPIHandler; unfold forwarded in HS;
          rewrite HS; exact Hl|].
  split; [intros a t n sid Hid HS; unfold serviceAPIHandler; rewrite Hid;
          unfold runAPIHandler; unfold forwarded in HS;
          cbn [as_EndpointType as_EndpointName]; rewrite HS; exact Hl|].
  split; [|split; reflexivity].
  intros cert certs Hc HK. unfold kubernetesAPIHandler. rewrite Hc.
  unfold forwarded in HK. rewrite HK. cbn [negb fmap option_fmap option_map outcome].
  rewrite Hl. reflexivity.
Qed.

End ChunkedResponses.

(** C6 at one input: a request that carries a token and no certificate,
    and a chunk with body [late] as the first frame. *)
Lemma chunk_before_response_is_502_witness :
  let ValidateJWT := λ token : string,
        if String.eqb token "good-token" then Some ("aws", "prod", "east")
        else None in
  let Send := λ (_ : controller.AgentSearch) (_ : tunnel.HttpRequest), Some "session" in
  let r0 := http.mkRequest "GET" "/api" ∅ [] [] (Some ("user", "good-token")) in
  let out := [controller.chunkFrame
                (tunnel.mkHttpChunkedResponse "t" (bytesOf "late"))] in
  controller.extractEndpoint ValidateJWT r0 = inl ("east", "aws", "prod")
  /\ Send (controller.mkAgentSearch "east" "aws" "prod" "")
          (tunnel.mkHttpRequest "t" "prod" "aws" "GET" "/api"
             (controller.makeHeaders ∅) [])
     = Some "session"
  /\ controller.outcome
       (controller.serviceAPIHandler ValidateJWT (λ _, []) "t" Send
          http.newResponseWriter r0 out)
     = controller.Returned
         {| controller.w := {| http.rw_header := ∅; http.rw_wroteHeader := true;
                               http.rw_sent := [http.SentHeader 502 ∅] |};
            controller.r := r0; controller.seenHeader := false;
            controller.isChunked := false; controller.cleanClose := false |}.
Proof.
  cbv zeta. split; [reflexivity|]. split; [reflexivity|].
  destruct (chunk_before_response_is_502
              (λ token : string,
                 if String.eqb token "good-token" then Some ("aws", "prod", "east")
                 else None)
              (λ _, []) "t" (λ _ _, Some "session") (λ _ _, true)
              ∅ (http.mkRequest "GET" "/api" ∅ [] [] (Some ("user", "good-token")))
              (tunnel.mkHttpChunkedResponse "t" (bytesOf "late")) [])
    as (_ & _ & Hs & _).
  apply (Hs "east" "aws" "prod" "session"); reflexivity.
Defined.

(** ** The agent's command runner *)

Section AgentCommand.
Import tunnel agent.

Lemma countIf_app {A : Type} (p : A -> bool) (l1 l2 : list A) :
  countIf p (l1 ++ l2) = (countIf p l1 + countIf p l2)%nat.
Proof. induction l1 as [|x l1 IH]; simpl; [reflexivity | rewrite IH; lia]. Qed.

(** Every message of a sender is on the sender's channel. *)
Lemma outputSender_channel (c : ChannelDirection) (reads : list ReadResult) :
  Forall (λ msg, channel msg = c) (outputSender c reads).
Proof.
  induction reads as [|rd reads IH]; simpl; [constructor|].
  destruct (0 <? length (rd_bytes rd))%nat, (rd_err rd) as [[|e]|]; simpl;
    repeat constructor; auto.
Qed.

(** A sender closes its channel at most once, and exactly once when its
    reads come to an end. *)
Lemma outputSender_closed (c : ChannelDirection) (reads : list ReadResult) :
  countIf closed (outputSender c reads) = if ends reads then 1%nat else 0%nat.
Proof.
  induction reads as [|rd reads IH]; simpl; [reflexivity|].
  unfold ends in *. simpl.
  destruct (0 <? length (rd_bytes rd))%nat, (rd_err rd) as [[|e]|]; simpl; auto.
Qed.

Lemma countIf_closedOn_same (c : ChannelDirection) (l : list outputMessage) :
  Forall (λ msg, channel msg = c) l ->
  countIf (closedOn c) l = countIf closed l.
Proof.
  induction 1 as [|msg l Hc _ IH]; simpl; [reflexivity|].
  unfold closedOn at 1. rewrite Hc, IH.
  destruct (closed msg), c; reflexivity.
Qed.

Lemma countIf_closedOn_other (c c' : ChannelDirection) (l : list outputMessage) :
  c <> c' ->
  Forall (λ msg, channel msg = c) l ->
  countIf (closedOn c') l = 0%nat.
Proof.
  intros Hne. induction 1 as [|msg l Hc _ IH]; simpl; [reflexivity|].
  unfold closedOn at 1. rewrite Hc, IH.
  destruct (closed msg), c, c'; simpl; congruence.
Qed.

Lemma countIf_closedOn_le (c : ChannelDirection) (l : list outputMessage) :
  (countIf (closedOn c) l <= countIf closed l)%nat.
Proof.
  induction l as [|msg l IH]; simpl; [lia|]. unfold closedOn at 1.
  destruct (closed msg), (ChannelDirection_eqb (channel msg) c); simpl; lia.
Qed.

(** Merging two senders keeps every message of both. *)
Lemma interleave_countIf {A : Type} (p : A -> bool) (sched : list bool) :
  forall l1 l2 : list A,
    countIf p (interleave sched l1 l2) = (countIf p l1 + countIf p l2)%nat.
Proof.
  induction sched as [|[] sched IH]; intros l1 l2; simpl.
  - apply countIf_app.
  - destruct l1 as [|x l1]; simpl; [reflexivity | rewrite IH; lia].
  - destruct l2 as [|y l2]; simpl; [lia | rewrite IH; simpl; lia].
Qed.

Lemma toFrame_closed (req : CommandRequest) (c : ChannelDirection)
    (l : list outputMessage) :
  countIf (isClosedFrame c) (map (toFrame req) l) = countIf (closedOn c) l.
Proof.
  induction l as [|msg l IH]; simpl; [reflexivity|]. rewrite IH.
  unfold toFrame, closedOn. destruct (closed msg); reflexivity.
Qed.

Lemma toFrame_no_termination (req : CommandRequest) (l : list outputMessage) :
  countIf isTermination (map (toFrame req) l) = 0%nat.
Proof.
  induction l as [|msg l IH]; simpl; [reflexivity|]. rewrite IH.
  unfold toFrame. destruct (closed msg); reflexivity.
Qed.

(** The loop forwards a prefix of what the aggregation channel delivers:
    up to the message that brings the count to zero when it leaves by its
    [break], all of it otherwise. *)
Lemma aggregate_prefix (req : CommandRequest) (agg : list outputMessage) :
  forall n : Z,
    0 < n ->
    exists pre post,
      agg = pre ++ post
      /\ (aggregate req agg n).1 = map (toFrame req) pre
      /\ if (aggregate req agg n).2
         then Z.of_nat (countIf closed pre) = n
         else post = [] /\ Z.of_nat (countIf closed pre) < n.
Proof.
  induction agg as [|msg agg IH]; intros n Hn; simpl.
  - exists [], []. simpl. repeat split; auto.
  - destruct (closed msg) eqn:Hc.
    + destruct (n - 1 =? 0) eqn:Hz.
      * apply Z.eqb_eq in Hz. exists [msg], agg. simpl.
        unfold toFrame. rewrite Hc. repeat split; auto. lia.
      * apply Z.eqb_neq in Hz.
        destruct (IH (n - 1)) as (pre & post & -> & Hf & Hb); [lia|].
        destruct (aggregate req (pre ++ post) (n - 1)) as [frames broke].
        simpl in *. exists (msg :: pre), post. simpl.
        unfold toFrame at 1. rewrite Hc, Hf. split; [reflexivity|].
        split; [reflexivity|]. destruct broke; [lia|].
        destruct Hb as [-> Hb]. split; [reflexivity | lia].
    + destruct (IH n Hn) as (pre & post & -> & Hf & Hb).
      destruct (aggregate req (pre ++ post) n) as [frames broke].
      simpl in *. exists (msg :: pre), post. simpl.
      unfold toFrame at 1. rewrite Hc, Hf. split; [reflexivity|].
      split; [reflexivity|]. exact Hb.
Qed.

(** C7: when the process was started, the frames [runCommand] puts on
    [dataflow] are a body without any [CommandTermination] and then, when
    the loop is left, one [CommandTermination] at the very end; in that
    case the body has exactly one [CommandData{closed=true}] for STDOUT
    and exactly one for STDERR. The loop is left whenever the reads of
    both pipes come to an end; otherwise no [CommandTermination] is put
    on [dataflow] at all. *)
Theorem runCommand_closes_both_before_termination
    (req : CommandRequest) (p : Process) :
  started p = true ->
  exists body,
    countIf isTermination body = 0%nat
    /\ isTermination (afterWait req (Wait_result p)) = true
    /\ ((runCommand req p = body ++ [afterWait req (Wait_result p)]
         /\ countIf (isClosedFrame STDOUT) body = 1%nat
         /\ countIf (isClosedFrame STDERR) body = 1%nat)
        \/ (runCommand req p = body
            /\ ends (stdoutReads p) && ends (stderrReads p) = false)).
Proof.
  intros Hs. unfold started in Hs. unfold runCommand.
  destruct (StdoutPipe_err p); [discriminate|].
  destruct (StderrPipe_err p); [discriminate|].
  destruct (Start_err p); [discriminate|]. clear Hs.
  set (out := outputSender STDOUT (stdoutReads p)).
  set (err := outputSender STDERR (stderrReads p)).
  set (agg := interleave (schedule p) out err).
  assert (Hout : countIf (closedOn STDOUT) agg
                 = if ends (stdoutReads p) then 1%nat else 0%nat).
  { unfold agg. rewrite interleave_countIf.
    rewrite (countIf_closedOn_same STDOUT out) by apply outputSender_channel.
    rewrite (countIf_closedOn_other STDERR STDOUT err)
      by (try discriminate; apply outputSender_channel).
    unfold out. rewrite outputSender_closed. lia. }
  assert (Herr : countIf (closedOn STDERR) agg
                 = if ends (stderrReads p) then 1%nat else 0%nat).
  { unfold agg. rewrite interleave_countIf.
    rewrite (countIf_closedOn_other STDOUT STDERR out)
      by (try discriminate; apply outputSender_channel).
    rewrite (countIf_closedOn_same STDERR err) by apply outputSender_channel.
    unfold err. rewrite outputSender_closed. lia. }
  assert (Hall : countIf closed agg
                 = ((if ends (stdoutReads p) then 1 else 0)
                    + (if ends (stderrReads p) then 1 else 0))%nat).
  { unfold agg. rewrite interleave_countIf. unfold out, err.
    rewrite !outputSender_closed. reflexivity. }
  destruct (aggregate_prefix req agg 2) as (pre & post & Hagg & Hf & Hb); [lia|].
  destruct (aggregate req agg 2) as [frames broke]. simpl in Hf, Hb. subst frames.
  exists (map (toFrame req) pre).
  split; [apply toFrame_no_termination|].
  split; [destruct (Wait_result p) as [|[s|]|e]; reflexivity|].
  rewrite Hagg in Hout, Herr, Hall. rewrite countIf_app in Hout, Herr, Hall.
  destruct broke.
  - left. split; [reflexivity|]. rewrite !toFrame_closed.
    pose proof (countIf_closedOn_le STDOUT post).
    pose proof (countIf_closedOn_le STDERR post).
    destruct (ends (stdoutReads p)), (ends (stderrReads p)); lia.
  - right. split; [reflexivity|]. destruct Hb as [-> Hb]. simpl in Hall.
    destruct (ends (stdoutReads p)), (ends (stderrReads p)); simpl; auto; lia.
Qed.

(** Scenario S6: [echo hi] writes [hi] and a newline to its standard
    output, both pipes reach their end, and the process exits with 0. *)
Lemma runCommand_closes_both_before_termination_witness :
  let req := mkCommandRequest "c1" "echo" ["hi"] [] in
  let p := {| StdoutPipe_err := None; StderrPipe_err := None; Start_err := None;
              stdoutReads := [mkReadResult (bytesOf "hi") None;
                              mkReadResult [] (Some EOF)];
              stderrReads := [mkReadResult [] (Some EOF)];
              schedule := [true; true];
              Wait_result := WaitNil |} in
  started p = true
  /\ runCommand req p
     = [makeCommandData req STDOUT (bytesOf "hi");
        makeCommandDataClosed req STDOUT;
        makeCommandDataClosed req STDERR;
        makeCommandTermination req 0]
  /\ exists body,
       countIf isTermination body = 0%nat
       /\ isTermination (afterWait req (Wait_result p)) = true
       /\ ((runCommand req p = body ++ [afterWait req (Wait_result p)]
            /\ countIf (isClosedFrame STDOUT) body = 1%nat
            /\ countIf (isClosedFrame STDERR) body = 1%nat)
           \/ (runCommand req p = body
               /\ ends (stdoutReads p) && ends (stderrReads p) = false)).
Proof.
  cbv zeta. split; [reflexivity|]. split; [reflexivity|].
  apply (runCommand_closes_both_before_termination
           (mkCommandRequest "c1" "echo" ["hi"] [])
           {| StdoutPipe_err := None; StderrPipe_err := None; Start_err := None;
              stdoutReads := [mkReadResult (bytesOf "hi") None;
                              mkReadResult [] (Some EOF)];
              stderrReads := [mkReadResult [] (Some EOF)];
              schedule := [true; true];
              Wait_result := WaitNil |}).
  reflexivity.
Defined.

(** C8: when the process cannot be spawned, one of the pipe calls or
    [Start] failing, the only frame [runCommand] puts on [dataflow] is a
    [CommandTermination] with exit code 127 whose message is the name of
    the failed call, a colon and the text of the error; no [CommandData]
    frame is among what it sends. *)
Theorem runCommand_spawn_failure (req : CommandRequest) (p : Process) :
  started p = false ->
  exists call err,
    runCommand req p
    = [A2C_CommandTermination
         {| ct_Id := cr_Id req; ct_ExitCode := 127;
            ct_Message := call +:+ ": " +:+ err |}]
    /\ ((call = "StdoutPipe()" /\ StdoutPipe_err p = Some err)
        \/ (call = "StderrPipe()" /\ StdoutPipe_err p = None
                                  /\ StderrPipe_err p = Some err)
        \/ (call = "Start()" /\ StdoutPipe_err p = None
                             /\ StderrPipe_err p = None
                             /\ Start_err p = Some err))
    /\ call +:+ ": " +:+ err <> ""
    /\ countIf isCommandData (runCommand req p) = 0%nat.
Proof.
  unfold started, runCommand. intros Hs.
  destruct (StdoutPipe_err p) as [e|].
  { exists "StdoutPipe()", e. repeat split; auto; discriminate. }
  destruct (StderrPipe_err p) as [e|].
  { exists "StderrPipe()", e. repeat split; auto; discriminate. }
  destruct (Start_err p) as [e|]; [|discriminate].
  exists "Start()", e. repeat split; auto 6; discriminate.
Qed.

(** A command that is not there: [Start] fails. *)
Lemma runCommand_spawn_failure_witness :
  let req := mkCommandRequest "c2" "no-such-command" [] [] in
  let p := {| StdoutPipe_err := None; StderrPipe_err := None;
              Start_err := Some "executable file not found in $PATH";
              stdoutReads := []; stderrReads := []; schedule := [];
              Wait_result := WaitNil |} in
  started p = false
  /\ exists call err,
       runCommand req p
       = [A2C_CommandTermination
            {| ct_Id := cr_Id req; ct_ExitCode := 127;
               ct_Message := call +:+ ": " +:+ err |}]
       /\ ((call = "StdoutPipe()" /\ StdoutPipe_err p = Some err)
           \/ (call = "StderrPipe()" /\ StdoutPipe_err p = None
                                     /\ StderrPipe_err p = Some err)
           \/ (call = "Start()" /\ StdoutPipe_err p = None
                                /\ StderrPipe_err p = None
                                /\ Start_err p = Some err))
       /\ call +:+ ": " +:+ err <> ""
       /\ countIf isCommandData (runCommand req p) = 0%nat.
Proof.
  cbv zeta. split; [reflexivity|].
  apply (runCommand_spawn_failure
           (mkCommandRequest "c2" "no-such-command" [] [])
           {| StdoutPipe_err := None; StderrPipe_err := None;
              Start_err := Some "executable file not found in $PATH";
              stdoutReads := []; stderrReads := []; schedule := [];
              Wait_result := WaitNil |}).
  reflexivity.
Defined.

End AgentCommand.

(** ** The command tool *)

Section CommandTool.
Import tunnel cmdtool.

(** Messages other than a termination are taken in one after the other:
    a data frame's body is appended to the standard output when its
    channel is STDOUT and to the standard error otherwise. *)
Lemma runCommand_data (msgs : list ControllerToCmdToolWrapper) :
  forall (o : Output) (rest : list Recv),
    forallb notTermination msgs = true ->
    runCommand (map RecvMsg msgs ++ rest) o
    = runCommand rest {| Stdout := Stdout o ++ stdoutBytes msgs;
                         Stderr := Stderr o ++ stderrBytes msgs |}.
Proof.
  induction msgs as [|msg msgs IH]; intros o rest Hn.
  - simpl. rewrite !app_nil_r. destruct o; reflexivity.
  - simpl in Hn. apply andb_true_iff in Hn as [Hm Hn].
    destruct msg as [t|d|]; [discriminate| |]; simpl.
    + rewrite IH by auto. unfold onCommandData.
      destruct (ChannelDirection_eqb (tcd_Channel d) STDOUT); simpl;
        rewrite <- ?app_assoc; reflexivity.
    + apply IH; auto.
Qed.

(** C9: when a [CommandTermination] frame comes, after any messages that
    are not one, the tool calls [os.Exit] with the exit code of the frame;
    by then its standard output holds the bodies of the STDOUT data
    frames, in order, and its standard error those of the other data
    frames, followed by the frame's message and a newline when the
    message is not empty. Nothing after the frame is read. *)
Theorem runCommand_exits_with_reported_code
    (msgs : list ControllerToCmdToolWrapper) (t : CmdToolCommandTermination)
    (rest : list Recv) :
  forallb notTermination msgs = true ->
  runCommand (map RecvMsg msgs ++ RecvMsg (C2T_CommandTermination t) :: rest) start
  = Exit (tct_ExitCode t)
      {| Stdout := stdoutBytes msgs;
         Stderr := stderrBytes msgs ++ messageLine (tct_Message t) |}.
Proof.
  intros Hn. rewrite runCommand_data by exact Hn. simpl.
  unfold onCommandTermination, messageLine. simpl.
  destruct (0 <? String.length (tct_Message t))%nat; simpl;
    rewrite ?app_nil_r; reflexivity.
Qed.

(** A command that writes [hi] to its standard output, [warn] to its
    standard error, and ends with exit code 3 and the message [oops]. *)
Lemma runCommand_exits_with_reported_code_witness :
  let msgs := [C2T_CommandData (mkCmdToolCommandData (bytesOf "hi") STDOUT false);
               C2T_CommandData (mkCmdToolCommandData (bytesOf "warn") STDERR false);
               C2T_CommandData (mkCmdToolCommandData [] STDOUT true);
               C2T_CommandData (mkCmdToolCommandData [] STDERR true)] in
  let t := mkCmdToolCommandTermination 3 "oops" in
  forallb notTermination msgs = true
  /\ runCommand (map RecvMsg msgs ++ [RecvMsg (C2T_CommandTermination t)]) start
     = Exit 3 {| Stdout := bytesOf "hi";
                 Stderr := bytesOf "warnoops" ++ [Byte.x0a] |}.
Proof.
  cbv zeta. split; [reflexivity|].
  rewrite (runCommand_exits_with_reported_code
             [C2T_CommandData (mkCmdToolCommandData (bytesOf "hi") STDOUT false);
              C2T_CommandData (mkCmdToolCommandData (bytesOf "warn") STDERR false);
              C2T_CommandData (mkCmdToolCommandData [] STDOUT true);
              C2T_CommandData (mkCmdToolCommandData [] STDERR true)]
             (mkCmdToolCommandTermination 3 "oops") []) by reflexivity.
  reflexivity.
Defined.

End CommandTool.

(** C10 at one input: a service certificate for [(east, aws, prod)]
    together with Basic credentials whose token would name another
    endpoint; and the same credentials with no certificate. *)
Lemma extractEndpoint_certificate_first_witness :
  let ValidateJWT := λ token : string,
        if String.eqb token "good-token" then Some ("jenkins", "ci", "west")
        else None in
  let cert := ca.mkCertificate "east.aws.prod"
                (Some (ca.mkCertificateName "prod" "aws" "east"
                         ca.CertificatePurposeService)) in
  let both := http.mkRequest "GET" "/" ∅ [] [cert] (Some ("user", "good-token")) in
  let onlyJWT := http.mkRequest "GET" "/" ∅ [] [] (Some ("user", "good-token")) in
  controller.extractEndpoint ValidateJWT both = inl ("east", "aws", "prod")
  /\ controller.extractEndpoint ValidateJWT onlyJWT = inl ("west", "jenkins", "ci").
Proof.
  cbv zeta.
  destruct (extractEndpoint_certificate_first
              (λ token : string,
                 if String.eqb token "good-token" then Some ("jenkins", "ci", "west")
                 else None))
    as (Hcert & _ & Hjwt & _).
  split.
  - apply Hcert.
  - rewrite Hjwt by reflexivity. reflexivity.
Defined.

(* ===================================================================== *)
(** * Further properties of the code *)
(* ===================================================================== *)

(** ** The control API: the gate and the credentials it mints *)

Section ControlCredentials.
Import ca cncserver.

Variable commonNameOf : CertificateName -> string.
Variables caCert freshKey : string.

Let authority := GenerateCertificate commonNameOf caCert freshKey.

(** X1. The gate of the control API runs the handler behind it exactly
    when the method is the expected one and the first peer certificate
    parses to a control-purpose name; in every other case the reply does
    not depend on the handler and is never a handler's reply. The method
    is looked at first: with the wrong method the reply is 405 even when
    no certificate is there to index. *)
Theorem authenticate_runs_handler_iff_passesGate {B A : Type}
    (method : string) (h : Request B -> Reply A) (r : Request B) :
  (passesGate method r = true -> authenticate method h r = h r)
  /\ (passesGate method r = false ->
      isWrote (authenticate method h r) = false
      /\ forall h' : Request B -> Reply A,
           authenticate method h' r = authenticate method h r)
  /\ (String.eqb (Method r) method = false ->
      exists err, authenticate method h r = FailRequest err StatusMethodNotAllowed).
Proof.
  unfold passesGate, authenticate, GetCertificateNameFromCert.
  destruct (String.eqb (Method r) method); simpl.
  - destruct (PeerCertificates r) as [|cert rest].
    + repeat split; auto; discriminate.
    + destruct (encodedName cert) as [names|].
      * destruct (CertificatePurpose_eqb (cn_Purpose names) CertificatePurposeControl);
          simpl; repeat split; auto; discriminate.
      * repeat split; auto; discriminate.
  - repeat split; eauto; discriminate.
Qed.

Variable validateKubeConfig : KubeConfigRequest -> option string.
Variable validateManifest : ManifestRequest -> option string.
Variables serviceURL agentHostname : string.
Variable agentPort : Z.
Variable ValidateJWT : string -> option (string * string * string).

(** X2. The certificate [generateKubectlComponents] hands out for a valid
    request [{agentName, name}] is one the service listener takes: shown
    as the first peer certificate, it gives the identity (agentName,
    kubernetes, name), whatever Basic credentials come with it; shown to
    the gate of the control API it is refused with 403. *)
Theorem kubectl_certificate_is_a_service_identity
    (req : KubeConfigRequest) (m : string) (certs : list Certificate) :
  validateKubeConfig req = None ->
  exists resp,
    generateKubectlComponents authority validateKubeConfig serviceURL
      {| Method := m; PeerCertificates := certs; decoded := Some req |}
    = Wrote resp
    /\ kcresp_AgentName resp = kcr_AgentName req
    /\ kcresp_Name resp = kcr_Name req
    /\ (forall rm uri hdr body rest auth,
          controller.extractEndpoint ValidateJWT
            {| http.Method := rm; http.RequestURI := uri; http.Header_ := hdr;
               http.Body := body;
               http.PeerCertificates := kcresp_UserCertificate resp :: rest;
               http.BasicAuth := auth |}
          = inl (kcr_AgentName req, "kubernetes", kcr_Name req))
    /\ (forall (B A : Type) (h : Request B -> Reply A) (body : option B) rest,
          authenticate "POST" h
            {| Method := "POST";
               PeerCertificates := kcresp_UserCertificate resp :: rest;
               decoded := body |}
          = FailRequest "certificate is not authorized for 'control': service"
                        StatusForbidden).
Proof.
  intros Hv. unfold generateKubectlComponents. simpl. rewrite Hv.
  eexists. split; [reflexivity|]. simpl. repeat split; reflexivity.
Qed.

(** X3. The certificate [generateAgentManifestComponents] hands out for a
    valid request [{agentName}] names the agent and nothing else, with
    the purpose agent: the service listener gets no identity from it
    (with no Basic credentials the request is refused), and the gate of
    the control API refuses it with 403. *)
Theorem agent_certificate_is_no_service_or_control_identity
    (req : ManifestRequest) (m : string) (certs : list Certificate) :
  validateManifest req = None ->
  exists resp,
    generateAgentManifestComponents authority validateManifest
      agentHostname agentPort
      {| Method := m; PeerCertificates := certs; decoded := Some req |}
    = Wrote resp
    /\ GetCertificateNameFromCert (mresp_AgentCertificate resp)
       = inl {| cn_Name := ""; cn_Type := ""; cn_Agent := mr_AgentName req;
                cn_Purpose := CertificatePurposeAgent |}
    /\ (forall rm uri hdr body rest,
          controller.extractEndpoint ValidateJWT
            {| http.Method := rm; http.RequestURI := uri; http.Header_ := hdr;
               http.Body := body;
               http.PeerCertificates := mresp_AgentCertificate resp :: rest;
               http.BasicAuth := None |}
          = inr "no valid credentials or JWT found")
    /\ (forall (B A : Type) (h : Request B -> Reply A) (body : option B) rest,
          authenticate "POST" h
            {| Method := "POST";
               PeerCertificates := mresp_AgentCertificate resp :: rest;
               decoded := body |}
          = FailRequest "certificate is not authorized for 'control': agent"
                        StatusForbidden).
Proof.
  intros Hv. unfold generateAgentManifestComponents. simpl. rewrite Hv.
  eexists. split; [reflexivity|]. simpl. repeat split; reflexivity.
Qed.

Variable validateServiceCredential : ServiceCredentialRequest -> option string.
Variable Key : Type.
Variable LookupKeyID : string -> option Key.
Variable jwtCurrentKey : string.
Variable MakeJWT : Key -> string -> string -> string -> string + string.

(** X4. For a valid request [{agentName, type, name}], with the current
    key in the key set and a token the service listener's validation
    maps back to what it was made from, [generateServiceCredentials]
    answers with the user [name.agentName] and the token, packed as an
    [aws] credential exactly when the type is [aws] and as a [basic] one
    otherwise; and a request without client certificate that carries
    this user and token as Basic credentials gets the identity
    (agentName, type, name) on the service listener. *)
Theorem service_credentials_are_a_service_identity
    (req : ServiceCredentialRequest) (m : string) (certs : list Certificate)
    (key : Key) (token : string) :
  validateServiceCredential req = None ->
  LookupKeyID jwtCurrentKey = Some key ->
  MakeJWT key (scr_Type req) (scr_Name req) (scr_AgentName req) = inl token ->
  ValidateJWT token = Some (scr_Type req, scr_Name req, scr_AgentName req) ->
  let username := scr_Name req +:+ "." +:+ scr_AgentName req in
  exists resp,
    generateServiceCredentials validateServiceCredential serviceURL caCert
      Key LookupKeyID jwtCurrentKey MakeJWT
      {| Method := m; PeerCertificates := certs; decoded := Some req |}
    = Wrote resp
    /\ scresp_Credential resp
       = (if String.eqb (scr_Type req) "aws"
          then AwsCredentialResponse username token
          else BasicCredentialResponse username token)
    /\ scresp_CredentialType resp
       = (if String.eqb (scr_Type req) "aws" then "aws" else "basic")
    /\ (scresp_AgentName resp, scresp_Type resp, scresp_Name resp)
       = (scr_AgentName req, scr_Type req, scr_Name req)
    /\ (forall rm uri hdr body,
          controller.extractEndpoint ValidateJWT
            {| http.Method := rm; http.RequestURI := uri; http.Header_ := hdr;
               http.Body := body; http.PeerCertificates := [];
               http.BasicAuth := Some (username, token) |}
          = inl (scr_AgentName req, scr_Type req, scr_Name req)).
Proof.
  intros Hv Hk Hj Hr username. unfold generateServiceCredentials. simpl.
  rewrite Hv, Hk, Hj.
  assert (Hx : forall rm uri hdr body,
             controller.extractEndpoint ValidateJWT
               {| http.Method := rm; http.RequestURI := uri; http.Header_ := hdr;
                  http.Body := body; http.PeerCertificates := [];
                  http.BasicAuth := Some (username, token) |}
             = inl (scr_AgentName req, scr_Type req, scr_Name req)).
  { intros. unfold controller.extractEndpoint, controller.extractEndpointFromJWT.
    simpl. rewrite Hr. reflexivity. }
  destruct (String.eqb (scr_Type req) "aws"); eexists;
    (split; [reflexivity|]); simpl; repeat split; auto.
Qed.

(** X5. Without the current key in the key set
    [generateServiceCredentials] mints nothing: the reply is 400 and
    names the key; so it is when the request does not decode or is not
    valid. *)
Theorem service_credentials_need_the_current_key
    (m : string) (certs : list Certificate)
    (body : option ServiceCredentialRequest) :
  LookupKeyID jwtCurrentKey = None ->
  exists err,
    generateServiceCredentials validateServiceCredential serviceURL caCert
      Key LookupKeyID jwtCurrentKey MakeJWT
      {| Method := m; PeerCertificates := certs; decoded := body |}
    = FailRequest err StatusBadRequest
    /\ (forall req, body = Some req -> validateServiceCredential req = None ->
          err = "unable to find service key '" +:+ jwtCurrentKey +:+ "'").
Proof.
  intros Hk. unfold generateServiceCredentials. simpl.
  destruct body as [req|]; [|eexists; split; [reflexivity|]; discriminate].
  destruct (validateServiceCredential req) as [e|] eqn:Hv.
  - eexists. split; [reflexivity|]. intros ? [= <-]. congruence.
  - rewrite Hk. eexists. split; [reflexivity|]. auto.
Qed.

End ControlCredentials.

(** X2 for the agent [east] and the cluster [prod]. *)
Lemma kubectl_certificate_is_a_service_identity_witness :
  let validate := λ _ : cncserver.KubeConfigRequest, @None string in
  let req := cncserver.mkKubeConfigRequest "east" "prod" in
  validate req = None
  /\ exists resp,
       cncserver.generateKubectlComponents
         (ca.GenerateCertificate (λ n, ca.cn_Agent n) "CA" "KEY") validate "https://svc"
         (cncserver.mkRequest _ "POST" [] (Some req))
       = cncserver.Wrote resp
       /\ controller.extractEndpoint (λ _, None)
            (http.mkRequest "GET" "/api" ∅ []
               [cncserver.kcresp_UserCertificate resp] None)
          = inl ("east", "kubernetes", "prod").
Proof.
  cbv zeta. split; [reflexivity|].
  destruct (kubectl_certificate_is_a_service_identity
              (λ n, ca.cn_Agent n) "CA" "KEY" (λ _, None) "https://svc" (λ _, None)
              (cncserver.mkKubeConfigRequest "east" "prod") "POST" [] eq_refl)
    as (resp & Hw & _ & _ & Hs & _).
  exists resp. split; [exact Hw|]. apply Hs.
Defined.

(** X3 for the agent [east]. *)
Lemma agent_certificate_is_no_service_or_control_identity_witness :
  let validate := λ _ : cncserver.ManifestRequest, @None string in
  let req := cncserver.mkManifestRequest "east" in
  validate req = None
  /\ exists resp,
       cncserver.generateAgentManifestComponents
         (ca.GenerateCertificate (λ n, ca.cn_Agent n) "CA" "KEY") validate
         "controller.example" 9001
         (cncserver.mkRequest _ "POST" [] (Some req))
       = cncserver.Wrote resp
       /\ controller.extractEndpoint (λ _, None)
            (http.mkRequest "GET" "/api" ∅ []
               [cncserver.mresp_AgentCertificate resp] None)
          = inr "no valid credentials or JWT found".
Proof.
  cbv zeta. split; [reflexivity|].
  destruct (agent_certificate_is_no_service_or_control_identity
              (λ n, ca.cn_Agent n) "CA" "KEY" (λ _, None) "controller.example" 9001
              (λ _, None) (cncserver.mkManifestRequest "east") "POST" [] eq_refl)
    as (resp & Hw & _ & Hs & _).
  exists resp. split; [exact Hw|]. apply Hs.
Defined.

(** X4 with a key set of one key, whose tokens are the three fields
    joined by bars and validated for one of them. *)
Lemma service_credentials_are_a_service_identity_witness :
  let validate := λ _ : cncserver.ServiceCredentialRequest, @None string in
  let lookup := λ kid : string, if String.eqb kid "k1" then Some tt else None in
  let make := λ (_ : unit) (t n a : string),
                @inl string string (t +:+ "|" +:+ n +:+ "|" +:+ a) in
  let check := λ token : string,
                 if String.eqb token "aws|prod|east" then Some ("aws", "prod", "east")
                 else None in
  let req := cncserver.mkServiceCredentialRequest "east" "aws" "prod" in
  validate req = None
  /\ lookup "k1" = Some tt
  /\ make tt "aws" "prod" "east" = inl "aws|prod|east"
  /\ check "aws|prod|east" = Some ("aws", "prod", "east")
  /\ exists resp,
       cncserver.generateServiceCredentials validate "https://svc" "CA"
         unit lookup "k1" make (cncserver.mkRequest _ "POST" [] (Some req))
       = cncserver.Wrote resp
       /\ cncserver.scresp_Credential resp
          = cncserver.AwsCredentialResponse "prod.east" "aws|prod|east".
Proof.
  cbv zeta. repeat (split; [reflexivity|]).
  destruct (service_credentials_are_a_service_identity
              "CA" "https://svc"
              (λ token : string,
                 if String.eqb token "aws|prod|east" then Some ("aws", "prod", "east")
                 else None)
              (λ _, None) unit
              (λ kid : string, if String.eqb kid "k1" then Some tt else None)
              "k1"
              (λ (_ : unit) (t n a : string), inl (t +:+ "|" +:+ n +:+ "|" +:+ a))
              (cncserver.mkServiceCredentialRequest "east" "aws" "prod")
              "POST" [] tt "aws|prod|east" eq_refl eq_refl eq_refl eq_refl)
    as (resp & Hw & Hc & _).
  exists resp. split; [exact Hw|]. exact Hc.
Defined.

(** X5 with an empty key set. *)
Lemma service_credentials_need_the_current_key_witness :
  let lookup := λ _ : string, @None unit in
  lookup "k1" = None
  /\ exists err,
       cncserver.generateServiceCredentials (λ _, None) "https://svc" "CA"
         unit lookup "k1" (λ _ _ _ _, inl "token")
         (cncserver.mkRequest _ "POST" []
            (Some (cncserver.mkServiceCredentialRequest "east" "aws" "prod")))
       = cncserver.FailRequest err cncserver.StatusBadRequest
       /\ err = "unable to find service key 'k1'".
Proof.
  cbv zeta. split; [reflexivity|].
  destruct (service_credentials_need_the_current_key
              "CA" "https://svc" (λ _, None) unit (λ _, None) "k1"
              (λ _ _ _ _, inl "token") "POST" []
              (Some (cncserver.mkServiceCredentialRequest "east" "aws" "prod"))
              eq_refl)
    as (err & Hw & He).
  exists err. split; [exact Hw|]. apply (He _ eq_refl eq_refl).
Defined.

(** ** The service handler and the response loop *)

Section ServiceDispatch.
Import tunnel ca http controller.

Variable ValidateJWT : string -> option (string * string * string).
Variable httpError : string -> bytes.
Variable transactionID : string.
Variable Send : AgentSearch -> HttpRequest -> option string.
Variable SendToAgent : string -> HttpRequest -> bool.

(** X6. A request the service listener gets an identity (agentName,
    type, name) from is dispatched under exactly that identity: the
    search names the agent, the endpoint type and the endpoint name, and
    the [HttpRequest] carries the type, the name, the fresh id and the
    method, URI and body of the inbound request. When no session takes
    it, nothing is dispatched and the client gets 502 whatever the
    mailbox holds. *)
Theorem serviceAPIHandler_dispatches_under_identity
    (w0 : ResponseWriter) (r0 : Request) (out : list Recv)
    (agentName type name : string) :
  extractEndpoint ValidateJWT r0 = inl (agentName, type, name) ->
  let ep := {| as_Name := agentName; as_EndpointType := type;
               as_EndpointName := name; as_Session := "" |} in
  let req := {| req_Id := transactionID; req_Name := name; req_Type := type;
                req_Method := Method r0; req_URI := RequestURI r0;
                req_Headers := makeHeaders (Header_ r0); req_Body := Body r0 |} in
  let served := serviceAPIHandler ValidateJWT httpError transactionID Send w0 r0 out in
  (Send ep req = None ->
     dispatched served = []
     /\ outcome served
        = Returned {| w := sendHeader StatusBadGateway w0; r := r0;
                      seenHeader := false; isChunked := false;
                      cleanClose := false |})
  /\ (forall sessionID, Send ep req = Some sessionID ->
        dispatched served = [(ep, req)]
        /\ outcome served = responseLoop out (enterLoop w0 r0)).
Proof.
  intros Hid ep req served. subst served. unfold serviceAPIHandler.
  rewrite Hid. unfold runAPIHandler. cbn [as_EndpointType as_EndpointName]. split.
  - intros Hs. unfold ep, req in Hs. rewrite Hs. split; [reflexivity|].
    cbn [outcome]. rewrite callWriteHeader_valid by reflexivity. reflexivity.
  - intros sid Hs. unfold ep, req in Hs. rewrite Hs. split; reflexivity.
Qed.





(** X8. When the mailbox is closed before any frame came, the client gets
    502 and the transaction counts as cleanly closed; when it is closed
    after an [HttpResponse] frame whose status code has three digits and
    some body chunks, nothing is added to what was sent: the status stays
    the agent's, the body is what the chunks carried so far, and the
    handler returns with a clean close. *)
Theorem mailbox_closed_ends_the_transaction
    (h : Header) (r0 : Request) (rest : list Recv) :
  let st0 := enterLoop (freshWriter h) r0 in
  responseLoop (RecvClosed :: rest) st0
  = Returned {| w := {| rw_header := h; rw_wroteHeader := true;
                        rw_sent := [SentHeader StatusBadGateway h] |};
                r := r0; seenHeader := false; isChunked := false;
                cleanClose := true |}
  /\ (forall (resp : HttpResponse) (msgs : list AgentToControllerWrapper),
        checkWriteHeaderCode (resp_Status resp) = true ->
        resp_ContentLength resp <> 0 ->
        forallb keepsGoing msgs = true ->
        exists st,
          responseLoop (RecvMsg (A2C_HttpResponse resp) :: map RecvMsg msgs
                          ++ RecvClosed :: rest) st0
          = Returned st
          /\ cleanClose st = true
          /\ statusOf (rw_sent (w st)) = Some (resp_Status resp)
          /\ rw_sent (w st)
             = rw_sent (w (stateOf
                 (responseLoop
                    (RecvMsg (A2C_HttpResponse resp) :: map RecvMsg msgs) st0)))
          /\ bodyOf (rw_sent (w st)) = concat (chunkBodies msgs)).
Proof.
  cbv zeta. split; [reflexivity|]. intros resp msgs Hv Hz Hk.
  assert (Hrecv : responseLoop (map RecvMsg msgs) (afterResponse h r0 resp)
                  = Receiving (afterChunks (afterResponse h r0 resp)
                                 (chunkBodies msgs))).
  { rewrite <- (app_nil_r (map RecvMsg msgs)).
    rewrite responseLoop_chunks by auto. reflexivity. }
  rewrite !responseLoop_response by assumption.
  rewrite Hrecv, responseLoop_chunks by auto.
  rewrite responseLoop_closed by reflexivity.
  eexists. split; [reflexivity|]. cbn.
  split; [reflexivity|]. split; [reflexivity|]. split; [reflexivity|].
  apply bodyOf_written.
Qed.

(** The scenario of an agent that is gone after the headers and one
    chunk. *)
Lemma mailbox_closed_ends_the_transaction_witness :
  let r0 := http.mkRequest "GET" "/api" ∅ [] [] None in
  let resp := mkHttpResponse "t" 200
                [mkHttpHeader "content-type" ["text/plain"]] (-1) in
  let msgs := [A2C_HttpChunkedResponse (mkHttpChunkedResponse "t" (bytesOf "a"))] in
  checkWriteHeaderCode (resp_Status resp) = true
  /\ resp_ContentLength resp <> 0
  /\ forallb keepsGoing msgs = true
  /\ exists st,
       responseLoop (RecvMsg (A2C_HttpResponse resp) :: map RecvMsg msgs
                       ++ [RecvClosed])
         (enterLoop (freshWriter ∅) r0)
       = Returned st
       /\ cleanClose st = true
       /\ statusOf (rw_sent (w st)) = Some 200
       /\ bodyOf (rw_sent (w st)) = bytesOf "a".
Proof.
  cbv zeta. split; [reflexivity|]. split; [discriminate|]. split; [reflexivity|].
  destruct (mailbox_closed_ends_the_transaction
              ∅ (http.mkRequest "GET" "/api" ∅ [] [] None) [])
    as (_ & Hclosed).
  destruct (Hclosed
              (mkHttpResponse "t" 200
                 [mkHttpHeader "content-type" ["text/plain"]] (-1))
              [A2C_HttpChunkedResponse (mkHttpChunkedResponse "t" (bytesOf "a"))]
              eq_refl ltac:(discriminate) eq_refl)
    as (st & Hr & Hc & Hs & _ & Hb).
  exists st. repeat split; assumption.
Defined.

End ServiceDispatch.

Section OneStatusLine.
Import tunnel ca http controller.

Lemma consistent_sendHeader (code : Z) (w0 : ResponseWriter) :
  consistent w0 = true -> consistent (sendHeader code w0) = true.
Proof.
  destruct w0 as [h [] [|e snt]]; unfold consistent, sendHeader; simpl; auto.
  rewrite andb_false_r. discriminate.
Qed.

Lemma consistent_WriteHeader (code : Z) (w0 w1 : ResponseWriter) :
  WriteHeader code w0 = Some w1 ->
  consistent w0 = true -> consistent w1 = true.
Proof.
  unfold WriteHeader. intros Hw H.
  destruct (rw_wroteHeader w0) eqn:Hf; [congruence|].
  destruct (checkWriteHeaderCode code); [|discriminate].
  injection Hw as <-.
  pose proof (consistent_sendHeader code w0 H) as H1.
  unfold sendHeader in H1. rewrite Hf in H1. exact H1.
Qed.

Lemma consistent_callWriteHeader (code : Z) (st : Handler)
    (k : ResponseWriter -> Turn) :
  consistent (w st) = true ->
  (forall w1, consistent w1 = true -> consistent (w (turnState (k w1))) = true) ->
  consistent (w (turnState (callWriteHeader code st k))) = true.
Proof.
  intros H Hk. unfold callWriteHeader.
  destruct (WriteHeader code (w st)) as [w1|] eqn:Hw; [|exact H].
  apply Hk. exact (consistent_WriteHeader code (w st) w1 Hw H).
Qed.

Lemma consistent_append (e : Sent) (w0 : ResponseWriter) :
  isSentHeader e = false ->
  rw_wroteHeader w0 = true ->
  consistent w0 = true ->
  consistent {| rw_header := rw_header w0; rw_wroteHeader := true;
                rw_sent := rw_sent w0 ++ [e] |} = true.
Proof.
  destruct w0 as [h wh [|e0 snt]]; unfold consistent; simpl; intros He -> H.
  - discriminate.
  - rewrite andb_true_r in *. destruct e0; try discriminate.
    rewrite forallb_app, H. simpl. rewrite He. reflexivity.
Qed.

Lemma consistent_Write (b : bytes) (w0 : ResponseWriter) :
  consistent w0 = true -> consistent (Write b w0) = true.
Proof.
  intros H. unfold Write. destruct (rw_wroteHeader w0) eqn:Hw.
  - rewrite Hw. apply (consistent_append (SentBody b)); auto.
  - pose proof (consistent_sendHeader StatusOK w0 H) as H1.
    assert (Hw1 : rw_wroteHeader (sendHeader StatusOK w0) = true)
      by (unfold sendHeader; rewrite Hw; reflexivity).
    rewrite Hw1. apply (consistent_append (SentBody b)); auto.
Qed.

Lemma consistent_Flush (w0 : ResponseWriter) :
  consistent w0 = true -> consistent (Flush w0) = true.
Proof.
  intros H. unfold Flush. destruct (rw_wroteHeader w0) eqn:Hw.
  - rewrite Hw. apply (consistent_append Flushed); auto.
  - pose proof (consistent_sendHeader StatusOK w0 H) as H1.
    assert (Hw1 : rw_wroteHeader (sendHeader StatusOK w0) = true)
      by (unfold sendHeader; rewrite Hw; reflexivity).
    rewrite Hw1. apply (consistent_append Flushed); auto.
Qed.

Lemma consistent_onMessage (msg : AgentToControllerWrapper) (st : Handler) :
  consistent (w st) = true ->
  consistent (w (turnState (onMessage msg st))) = true.
Proof.
  intros H. destruct msg as [ts|resp|c| |d|t|]; cbn [onMessage turnState]; auto.
  - unfold onHttpResponse. apply consistent_callWriteHeader; [exact H|].
    intros w1 H1. destruct (resp_ContentLength resp =? 0); exact H1.
  - unfold onHttpChunkedResponse.
    destruct (negb (seenHeader st));
      [apply consistent_callWriteHeader; [exact H | intros w1 H1; exact H1]|].
    destruct (length (chunk_Body c) =? 0)%nat; cbn [turnState w]; auto.
    destruct (isChunked st); [apply consistent_Flush|]; apply consistent_Write; exact H.
Qed.

Lemma stateOf_ended (t : Turn) : stateOf (ended t) = turnState t.
Proof. destruct t; reflexivity. Qed.

Lemma consistent_responseLoop (out : list Recv) :
  forall st : Handler,
    consistent (w st) = true ->
    consistent (w (stateOf (responseLoop out st))) = true.
Proof.
  induction out as [|[msg|] out IH]; intros st H; cbn [responseLoop]; auto.
  - pose proof (consistent_onMessage msg st H) as H1.
    destruct (onMessage msg st) as [st'|st'|st']; cbn [turnState stateOf] in *; auto.
  - rewrite stateOf_ended. unfold onClosed.
    destruct (negb (seenHeader st)); [|exact H].
    apply consistent_callWriteHeader; [exact H | intros w1 H1; exact H1].
Qed.

Variable ValidateJWT : string -> option (string * string * string).
Variable httpError : string -> bytes.
Variable transactionID : string.
Variable Send : AgentSearch -> HttpRequest -> option string.
Variable SendToAgent : string -> HttpRequest -> bool.

(** X9. Whatever the request is and whatever frames the agent sends, in
    whatever order, what the service handler and the Kubernetes handler
    send on a new response writer is one response: at most one status
    line, and nothing of a body or a flush before it. *)
Theorem handlers_send_one_response
    (h : Header) (r0 : Request) (out : list Recv) :
  orderly (rw_sent (w (stateOf (outcome
     (serviceAPIHandler ValidateJWT httpError transactionID Send
        (freshWriter h) r0 out))))) = true
  /\ (forall served,
        kubernetesAPIHandler transactionID SendToAgent (freshWriter h) r0 out
        = Some served ->
        orderly (rw_sent (w (stateOf (outcome served)))) = true).
Proof.
  assert (H0 : consistent (freshWriter h) = true) by reflexivity.
  assert (Hl : consistent (w (stateOf (responseLoop out (enterLoop (freshWriter h) r0))))
               = true)
    by (apply consistent_responseLoop; exact H0).
  split.
  - unfold serviceAPIHandler.
    destruct (extractEndpoint ValidateJWT r0) as [[[a t] n]|err]; [|reflexivity].
    unfold runAPIHandler.
    match goal with |- context [Send ?e ?q] => destruct (Send e q) end;
      [|reflexivity].
    cbn [outcome]. apply andb_true_iff in Hl as [Hl _]. exact Hl.
  - unfold kubernetesAPIHandler. intros served.
    destruct (PeerCertificates r0) as [|cert certs]; [discriminate|].
    match goal with |- context [SendToAgent ?e ?q] => destruct (SendToAgent e q) end;
      intros [= <-]; [|reflexivity].
    cbn [outcome]. apply andb_true_iff in Hl as [Hl _]. exact Hl.
Qed.

End OneStatusLine.

(** ** Headers through the tunnel *)

Section Headers.
Import tunnel http controller.

(** X10. [makeHeaders] turns the header map of the inbound request into
    the list the agent gets: a header is in the list, with its values,
    exactly when the map has it under that name and the name is not
    [Accept-Encoding]; and no name comes twice. *)
Theorem makeHeaders_all_but_accept_encoding (headers : Header) :
  (forall name values,
      mkHttpHeader name values ∈ makeHeaders headers
      <-> headers !! name = Some values /\ name <> "Accept-Encoding")
  /\ NoDup (hh_Name <$> makeHeaders headers).
Proof.
  unfold makeHeaders. split.
  - intros name values. rewrite list_elem_of_fmap. split.
    + intros ([k v] & [= -> ->] & Hin). apply list_elem_of_filter in Hin as [Hp Hin].
      apply elem_of_map_to_list in Hin. split; [exact Hin|].
      simpl in Hp. intros ->. rewrite String.eqb_refl in Hp. exact Hp.
    + intros [Hl Hne]. exists (name, values). split; [reflexivity|].
      apply list_elem_of_filter. split; [|apply elem_of_map_to_list; exact Hl].
      simpl. apply String.eqb_neq in Hne. rewrite Hne. exact I.
  - rewrite <- list_fmap_compose.
    apply (NoDup_fmap_2_strong fst).
    + intros [k v] [k' v'] Hin Hin' Heq. simpl in Heq. subst k'.
      apply list_elem_of_filter in Hin as [_ Hin], Hin' as [_ Hin'].
      apply elem_of_map_to_list in Hin, Hin'. congruence.
    + apply NoDup_filter, NoDup_map_to_list.
Qed.

(** X11. After the agent's headers are copied onto a header map, the map
    holds under each canonical name the values it had, followed by the
    values of all the headers whose name has that canonical form, in the
    order they came; names that differ only in case are merged, and a
    name the agent gave no value for is left as it was. *)
Theorem copyHeaders_lookup (headers : list HttpHeader) :
  forall (h : Header) (key : string),
    copyHeaders headers h !! key
    = match valuesFor key headers with
      | [] => h !! key
      | values => Some (default [] (h !! key) ++ values)
      end.
Proof. intros h key. apply copyHeaders_onto. Qed.

Lemma valuesFor_of_list (l : list (string * list string)) (key : string) :
  NoDup (l.*1) ->
  (forall k v, (k, v) ∈ l -> CanonicalMIMEHeaderKey k = k) ->
  valuesFor key ((λ nv, mkHttpHeader nv.1 nv.2) <$> l)
  = default [] ((list_to_map l : Header) !! key).
Proof.
  induction l as [|[k v] l IH]; intros Hnd Hc; [reflexivity|].
  rewrite fmap_cons in Hnd. apply NoDup_cons in Hnd as [Hk Hnd]. simpl in Hk.
  rewrite fmap_cons. cbn [valuesFor hh_Name hh_Values fst snd].
  rewrite (Hc k v) by left.
  rewrite IH by (auto; intros k' v' Hin; apply (Hc k' v'); right; exact Hin).
  change (list_to_map ((k, v) :: l) : Header) with (<[k:=v]> (list_to_map l : Header)).
  destruct (String.eqb k key) eqn:He.
  - apply String.eqb_eq in He. subst key. rewrite lookup_insert_eq.
    rewrite not_elem_of_list_to_map_1 by exact Hk. simpl. apply app_nil_r.
  - apply String.eqb_neq in He. rewrite lookup_insert_ne by exact He. reflexivity.
Qed.

Lemma copyHeaders_of_list (l : list (string * list string)) :
  NoDup (l.*1) ->
  (forall k v, (k, v) ∈ l -> CanonicalMIMEHeaderKey k = k /\ v <> []) ->
  copyHeaders ((λ nv, mkHttpHeader nv.1 nv.2) <$> l) ∅ = list_to_map l.
Proof.
  intros Hnd Hc. apply map_eq. intros key.
  rewrite copyHeaders_on_empty.
  rewrite valuesFor_of_list by (auto; intros k v Hin; apply (Hc k v Hin)).
  destruct (list_to_map l !! key) as [v|] eqn:Hl; simpl; [|reflexivity].
  apply elem_of_list_to_map in Hl; [|exact Hnd].
  destruct (Hc key v Hl) as [_ Hne]. destruct v; [congruence|reflexivity].
Qed.

(** X12. Headers survive the tunnel. When every name of a header map is
    in canonical form and has at least one value, as in a map net/http
    has parsed, the headers the agent puts on its local request are the
    inbound request's headers without [Accept-Encoding], and the
    headers the controller copies from the agent's list of a local
    reply's headers onto an empty map are that reply's headers. *)
Theorem headers_round_trip (headers : Header) (id name type m uri : string)
    (body : bytes) :
  (forall k v, headers !! k = Some v -> CanonicalMIMEHeaderKey k = k /\ v <> []) ->
  agentTunnel.requestHeader
    {| req_Id := id; req_Name := name; req_Type := type; req_Method := m;
       req_URI := uri; req_Headers := makeHeaders headers; req_Body := body |}
  = delete "Accept-Encoding" headers
  /\ copyHeaders (agentTunnel.makeHeaders headers) ∅ = headers.
Proof.
  intros Hc. split.
  - unfold agentTunnel.requestHeader, makeHeaders. simpl.
    rewrite copyHeaders_of_list.
    + apply map_eq. intros key. apply option_eq. intros v.
      rewrite <- elem_of_list_to_map.
      * rewrite list_elem_of_filter, elem_of_map_to_list, lookup_delete_Some.
        simpl. split.
        -- intros [Hp Hl]. split; [|exact Hl]. intros <-.
           rewrite String.eqb_refl in Hp. exact Hp.
        -- intros [Hne Hl]. split; [|exact Hl].
           assert (key <> "Accept-Encoding") as Hne' by congruence.
           apply String.eqb_neq in Hne'. rewrite Hne'. exact I.
      * apply (sublist_NoDup _ ((map_to_list headers).*1));
          [apply NoDup_fst_map_to_list | apply fmap_sublist, sublist_filter].
    + apply (sublist_NoDup _ ((map_to_list headers).*1));
        [apply NoDup_fst_map_to_list | apply fmap_sublist, sublist_filter].
    + intros k v Hin. apply list_elem_of_filter in Hin as [_ Hin].
      apply elem_of_map_to_list in Hin. apply (Hc k v Hin).
  - unfold agentTunnel.makeHeaders. rewrite copyHeaders_of_list.
    + apply list_to_map_to_list.
    + apply NoDup_fst_map_to_list.
    + intros k v Hin. apply elem_of_map_to_list in Hin. apply (Hc k v Hin).
Qed.

(** X12 for a request with three headers. *)
Lemma headers_round_trip_witness :
  let headers : Header :=
    {[ "Accept" := ["*/*"]; "Accept-Encoding" := ["gzip"];
       "X-Trace" := ["a"; "b"] ]} in
  (forall k v, headers !! k = Some v -> CanonicalMIMEHeaderKey k = k /\ v <> [])
  /\ agentTunnel.requestHeader
       (mkHttpRequest "t" "prod" "aws" "GET" "/" (makeHeaders headers) [])
     = delete "Accept-Encoding" headers.
Proof.
  cbv zeta.
  assert (Hc : forall k v,
             ({[ "Accept" := ["*/*"]; "Accept-Encoding" := ["gzip"];
                 "X-Trace" := ["a"; "b"] ]} : Header) !! k = Some v ->
             CanonicalMIMEHeaderKey k = k /\ v <> []).
  { intros k v H.
    apply lookup_insert_Some in H as [[<- <-]|[_ H]];
      [split; [vm_compute; reflexivity | discriminate]|].
    apply lookup_insert_Some in H as [[<- <-]|[_ H]];
      [split; [vm_compute; reflexivity | discriminate]|].
    apply lookup_singleton_Some in H as [<- <-].
    split; [vm_compute; reflexivity | discriminate]. }
  split; [exact Hc|].
  apply (headers_round_trip _ "t" "prod" "aws" "GET" "/" [] Hc).
Defined.

End Headers.

(** ** Names from the peer certificate *)

Section PeerNames.
Import ca controller.

Lemma Split_dot_cons (s : string) : exists label labels, Split_dot s = label :: labels.
Proof.
  induction s as [|c rest IH]; simpl; [eauto|].
  destruct (Ascii.eqb c "."); [eauto|].
  destruct IH as (label & labels & ->). eauto.
Qed.

Lemma Split_dot_spec (s : string) :
  Join_dot (Split_dot s) = s
  /\ forallb dotFree (Split_dot s) = true
  /\ head (Split_dot s) = Some (firstLabel s)
  /\ (dotFree s = true -> firstLabel s = s).
Proof.
  induction s as [|c rest IH]; [simpl; auto|].
  destruct IH as (IHj & IHd & IHh & IHf).
  destruct (Split_dot_cons rest) as (label & labels & Hs).
  cbn [Split_dot firstLabel dotFree].
  destruct (Ascii.eqb c ".") eqn:Hc; rewrite Hs in *.
  - apply Ascii.eqb_eq in Hc. subst c.
    split; [change (Join_dot ("" :: label :: labels))
              with ("" +:+ "." +:+ Join_dot (label :: labels));
            rewrite IHj; reflexivity|].
    split; [exact IHd|].
    split; [reflexivity|]. simpl. discriminate.
  - cbn [head] in IHh. injection IHh as IHh.
    split; [destruct labels; cbn [Join_dot] in *; rewrite <- IHj; reflexivity|].
    split; [cbn [forallb dotFree] in *; rewrite Hc; exact IHd|].
    split; [cbn [head]; rewrite IHh; reflexivity|].
    simpl. intros Hf. f_equal. apply IHf. exact Hf.
Qed.

(** X13. Splitting a common name at its dots loses nothing: joining the
    labels with dots gives the name back; there is always at least one
    label, none of them has a dot, and the first one is what
    [firstLabel] returns, the whole name when it has no dot. *)
Theorem Split_dot_labels (s : string) :
  Join_dot (Split_dot s) = s
  /\ forallb dotFree (Split_dot s) = true
  /\ head (Split_dot s) = Some (firstLabel s)
  /\ (dotFree s = true -> firstLabel s = s).
Proof. apply Split_dot_spec. Qed.

(** X14. [getAgentNameFromContext] never indexes an empty slice: with a
    TLS peer whose first verified chain has a leaf it returns the first
    label of the leaf's common name, which is the agent name
    [kubernetesAPIHandler] reads off the same certificate; with no peer,
    another kind of transport credentials, no verified chain or an empty
    first chain it returns an error and the empty name. *)
Theorem getAgentNameFromContext_first_label (ctx : Peer) :
  match ctx with
  | TLSInfo ((cert :: _) :: _) =>
      getAgentNameFromContext ctx = Some (firstLabel (Subject_CommonName cert), None)
      /\ dotFree (firstLabel (Subject_CommonName cert)) = true
  | _ => exists err, getAgentNameFromContext ctx = Some ("", Some err)
  end.
Proof.
  destruct ctx as [| |[|[|cert chain] chains]]; try (eexists; reflexivity).
  unfold getAgentNameFromContext, getNamesFromContext.
  destruct (Split_dot_spec (Subject_CommonName cert)) as (_ & Hd & Hh & _).
  destruct (Split_dot (Subject_CommonName cert)) as [|label labels];
    [discriminate|].
  simpl in Hh, Hd. injection Hh as ->.
  apply andb_true_iff in Hd as [Hd _]. auto.
Qed.

End PeerNames.

(** ** What the agent's command runner forwards *)

Section AgentForwarding.
Import tunnel agent.

Lemma channelBytes_app (c : ChannelDirection) (l1 l2 : list AgentToControllerWrapper) :
  channelBytes c (l1 ++ l2) = channelBytes c l1 ++ channelBytes c l2.
Proof.
  induction l1 as [|f l1 IH]; simpl; [reflexivity|].
  destruct f as [ts|resp|ch| |d|t|]; auto.
  destruct (ChannelDirection_eqb (cd_Channel d) c); auto.
  rewrite IH. apply app_assoc.
Qed.

Lemma ChannelDirection_eqb_eq (a b : ChannelDirection) :
  ChannelDirection_eqb a b = true <-> a = b.
Proof. destruct a, b; simpl; split; congruence. Qed.

Lemma toFrame_channel (req : CommandRequest) (c : ChannelDirection)
    (msg : outputMessage) (rest : list AgentToControllerWrapper) :
  channelBytes c (toFrame req msg :: rest)
  = if ChannelDirection_eqb (channel msg) c
    then (if closed msg then [] else value msg) ++ channelBytes c rest
    else channelBytes c rest.
Proof. unfold toFrame. destruct (closed msg); reflexivity. Qed.

(** The frames of a sender carry, on its channel, the bytes its reads
    returned. *)
Lemma outputSender_bytes (req : CommandRequest) (c : ChannelDirection)
    (reads : list ReadResult) :
  channelBytes c (map (toFrame req) (outputSender c reads)) = bytesRead reads.
Proof.
  assert (Hcc : ChannelDirection_eqb c c = true) by (destruct c; reflexivity).
  induction reads as [|rd reads IH]; [reflexivity|].
  cbn [outputSender bytesRead].
  destruct (rd_bytes rd) as [|b bs] eqn:Hb; cbn [length Nat.ltb Nat.leb];
    destruct (rd_err rd) as [[|e]|]; cbn [app map];
    rewrite ?toFrame_channel; cbn [channel closed value]; rewrite ?Hcc;
    rewrite ?toFrame_channel; cbn [channel closed value]; rewrite ?Hcc;
    cbn [app channelBytes map]; rewrite ?IH, ?app_nil_r; reflexivity.
Qed.

Lemma other_channel_bytes (req : CommandRequest) (c : ChannelDirection)
    (l : list outputMessage) :
  Forall (λ msg, channel msg <> c) l ->
  channelBytes c (map (toFrame req) l) = [].
Proof.
  induction 1 as [|msg l Hc _ IH]; [reflexivity|].
  cbn [map]. rewrite toFrame_channel.
  destruct (ChannelDirection_eqb (channel msg) c) eqn:He; [|exact IH].
  apply ChannelDirection_eqb_eq in He. contradiction.
Qed.

(** Merging does not reorder the messages of one channel. *)
Lemma interleave_bytes_l (req : CommandRequest) (c : ChannelDirection)
    (sched : list bool) :
  forall l1 l2 : list outputMessage,
    Forall (λ msg, channel msg <> c) l2 ->
    channelBytes c (map (toFrame req) (interleave sched l1 l2))
    = channelBytes c (map (toFrame req) l1).
Proof.
  induction sched as [|[] sched IH]; intros l1 l2 H2; cbn [interleave].
  - rewrite map_app, channelBytes_app, (other_channel_bytes req c l2 H2).
    apply app_nil_r.
  - destruct l1 as [|x l1]; [apply other_channel_bytes; exact H2|].
    cbn [map]. rewrite !toFrame_channel, IH by exact H2. reflexivity.
  - destruct l2 as [|y l2]; [reflexivity|].
    inversion H2 as [|? ? Hy H2']; subst.
    cbn [map]. rewrite toFrame_channel, IH by exact H2'.
    destruct (ChannelDirection_eqb (channel y) c) eqn:He; [|reflexivity].
    apply ChannelDirection_eqb_eq in He. contradiction.
Qed.

Lemma interleave_bytes_r (req : CommandRequest) (c : ChannelDirection)
    (sched : list bool) :
  forall l1 l2 : list outputMessage,
    Forall (λ msg, channel msg <> c) l1 ->
    channelBytes c (map (toFrame req) (interleave sched l1 l2))
    = channelBytes c (map (toFrame req) l2).
Proof.
  induction sched as [|[] sched IH]; intros l1 l2 H1; cbn [interleave].
  - rewrite map_app, channelBytes_app, (other_channel_bytes req c l1 H1).
    reflexivity.
  - destruct l1 as [|x l1]; [reflexivity|].
    inversion H1 as [|? ? Hx H1']; subst.
    cbn [map]. rewrite toFrame_channel, IH by exact H1'.
    destruct (ChannelDirection_eqb (channel x) c) eqn:He; [|reflexivity].
    apply ChannelDirection_eqb_eq in He. contradiction.
  - destruct l2 as [|y l2]; [apply other_channel_bytes; exact H1|].
    cbn [map]. rewrite !toFrame_channel, IH by exact H1. reflexivity.
Qed.

Lemma interleave_last {A : Type} (sched : list bool) :
  forall (l1 l2 : list A) (x : A),
    last (interleave sched l1 l2) = Some x ->
    last l1 = Some x \/ last l2 = Some x.
Proof.
  induction sched as [|[] sched IH]; intros l1 l2 x; cbn [interleave].
  - rewrite last_app_Some. tauto.
  - destruct l1 as [|a l1]; [auto|].
    rewrite !last_cons. intros H.
    destruct (last (interleave sched l1 l2)) as [y|] eqn:Hl.
    + injection H as ->. destruct (IH _ _ _ Hl) as [->| ->]; auto.
    + injection H as ->. apply last_None in Hl.
      destruct sched as [|[] sched], l1, l2; simpl in Hl; try discriminate; auto.
  - destruct l2 as [|a l2]; [auto|].
    rewrite !last_cons. intros H.
    destruct (last (interleave sched l1 l2)) as [y|] eqn:Hl.
    + injection H as ->. destruct (IH _ _ _ Hl) as [->| ->]; auto.
    + injection H as ->. apply last_None in Hl.
      destruct sched as [|[] sched], l1, l2; simpl in Hl; try discriminate; auto.
Qed.

Lemma outputSender_last (c : ChannelDirection) (reads : list ReadResult) :
  forall msg, last (outputSender c reads) = Some msg ->
              ends reads = true -> closed msg = true.
Proof.
  induction reads as [|rd reads IH]; intros msg; [discriminate|].
  unfold ends. cbn [outputSender existsb].
  destruct (rd_err rd) as [[|e]|].
  - rewrite last_snoc. intros [= <-] _. reflexivity.
  - rewrite last_snoc. intros [= <-] _. reflexivity.
  - cbn [orb]. intros Hl He.
    assert (Hne : ends reads = true) by exact He.
    destruct (0 <? length (rd_bytes rd))%nat; cbn [app] in Hl; [|auto].
    rewrite last_cons in Hl.
    destruct (last (outputSender c reads)) as [y|] eqn:Hy; [injection Hl as ->; auto|].
    apply last_None in Hy. pose proof (outputSender_closed c reads) as Hc.
    rewrite Hy, Hne in Hc. discriminate.
Qed.

(** With fewer closed messages than the count, the loop forwards all it
    gets and is not left. *)
Lemma aggregate_short (req : CommandRequest) (agg : list outputMessage) :
  forall n : Z,
    Z.of_nat (countIf closed agg) < n ->
    aggregate req agg n = (map (toFrame req) agg, false).
Proof.
  induction agg as [|msg agg IH]; intros n Hn; [reflexivity|].
  cbn [aggregate countIf map] in *. unfold toFrame at 1.
  destruct (closed msg).
  - destruct (n - 1 =? 0) eqn:Hz; [apply Z.eqb_eq in Hz; lia|].
    rewrite IH by lia. reflexivity.
  - rewrite IH by (simpl in Hn; lia). reflexivity.
Qed.

(** With exactly as many closed messages as the count, the last message
    being one of them, the loop forwards all of it and is left. *)
Lemma aggregate_all (req : CommandRequest) (agg : list outputMessage) :
  forall n : Z,
    Z.of_nat (countIf closed agg) = n ->
    (forall msg, last agg = Some msg -> closed msg = true) ->
    0 < n ->
    aggregate req agg n = (map (toFrame req) agg, true).
Proof.
  induction agg as [|msg agg IH]; intros n Hn Hl Hpos; [simpl in Hn; lia|].
  cbn [aggregate countIf map] in *. unfold toFrame at 1.
  assert (Hl' : agg <> [] -> forall m, last agg = Some m -> closed m = true).
  { intros Hne m Hm. apply Hl. rewrite last_cons, Hm. reflexivity. }
  destruct (closed msg) eqn:Hc.
  - destruct (n - 1 =? 0) eqn:Hz.
    + apply Z.eqb_eq in Hz.
      destruct agg as [|m agg]; [reflexivity|].
      exfalso. assert (Hcnt : countIf closed (m :: agg) = 0%nat) by lia.
      destruct (last (m :: agg)) as [y|] eqn:Hy; [|apply last_None in Hy; discriminate].
      pose proof (Hl' ltac:(discriminate) y eq_refl) as Hcy.
      clear - Hcnt Hy Hcy. revert Hcnt Hy. generalize (m :: agg). intros l.
      induction l as [|a l IHl]; [discriminate|].
      rewrite last_cons. cbn [countIf]. destruct (last l) as [z|] eqn:Hz.
      * intros Hcnt [= ->]. apply IHl; [|reflexivity].
        destruct (closed a); simpl in Hcnt; lia.
      * intros Hcnt [= ->]. rewrite Hcy in Hcnt. simpl in Hcnt. lia.
    + apply Z.eqb_neq in Hz. rewrite IH; [reflexivity|lia| |lia].
      destruct agg as [|m agg]; [simpl in Hn; lia|]. apply Hl'. discriminate.
  - rewrite IH; [reflexivity|simpl in Hn; lia| |lia].
    destruct agg as [|m agg].
    + specialize (Hl msg eq_refl). congruence.
    + apply Hl'. discriminate.
Qed.

(** What [runCommand] sends for a started process: a frame for each
    message of the two senders, as the schedule merges them, and after
    them the termination frame when both pipes came to an end. *)
Lemma runCommand_frames (req : CommandRequest) (p : Process) :
  started p = true ->
  runCommand req p
  = map (toFrame req)
      (interleave (schedule p) (outputSender STDOUT (stdoutReads p))
         (outputSender STDERR (stderrReads p)))
    ++ (if ends (stdoutReads p) && ends (stderrReads p)
        then [afterWait req (Wait_result p)] else []).
Proof.
  intros Hs. unfold started in Hs. unfold runCommand.
  destruct (StdoutPipe_err p); [discriminate|].
  destruct (StderrPipe_err p); [discriminate|].
  destruct (Start_err p); [discriminate|]. clear Hs.
  set (out := outputSender STDOUT (stdoutReads p)).
  set (err := outputSender STDERR (stderrReads p)).
  set (agg := interleave (schedule p) out err).
  assert (Hall : countIf closed agg
                 = ((if ends (stdoutReads p) then 1 else 0)
                    + (if ends (stderrReads p) then 1 else 0))%nat).
  { unfold agg. rewrite interleave_countIf. unfold out, err.
    rewrite !outputSender_closed. reflexivity. }
  destruct (ends (stdoutReads p)) eqn:E1, (ends (stderrReads p)) eqn:E2; cbn [andb].
  - rewrite (aggregate_all req agg 2); [reflexivity|rewrite Hall; reflexivity| |lia].
    intros msg Hl. apply interleave_last in Hl as [Hl|Hl].
    + apply (outputSender_last STDOUT (stdoutReads p)); assumption.
    + apply (outputSender_last STDERR (stderrReads p)); assumption.
  - rewrite (aggregate_short req agg 2) by (rewrite Hall; simpl; lia).
    symmetry. apply app_nil_r.
  - rewrite (aggregate_short req agg 2) by (rewrite Hall; simpl; lia).
    symmetry. apply app_nil_r.
  - rewrite (aggregate_short req agg 2) by (rewrite Hall; simpl; lia).
    symmetry. apply app_nil_r.
Qed.

(** X15. Whatever the order in which the two senders get to the
    aggregation channel, the data frames [runCommand] sends for a started
    process carry, on STDOUT, exactly the bytes read from the standard
    output pipe, in the order they were read, and on STDERR exactly those
    of the standard error pipe; nothing is sent on STDIN. *)
Theorem runCommand_forwards_every_byte_in_order
    (req : CommandRequest) (p : Process) :
  started p = true ->
  channelBytes STDOUT (runCommand req p) = bytesRead (stdoutReads p)
  /\ channelBytes STDERR (runCommand req p) = bytesRead (stderrReads p)
  /\ channelBytes STDIN (runCommand req p) = [].
Proof.
  intros Hs. rewrite (runCommand_frames req p Hs).
  assert (Ht : forall c, channelBytes c
                 (if ends (stdoutReads p) && ends (stderrReads p)
                  then [afterWait req (Wait_result p)] else []) = []).
  { intros c. destruct (ends (stdoutReads p) && ends (stderrReads p)); [|reflexivity].
    destruct (Wait_result p) as [|[s|]|e]; reflexivity. }
  rewrite !channelBytes_app, !Ht, !app_nil_r.
  assert (Ho : forall c, c <> STDOUT ->
             Forall (λ msg, channel msg <> c) (outputSender STDOUT (stdoutReads p))).
  { intros c Hc. eapply Forall_impl; [apply outputSender_channel|].
    simpl. intros msg ->. congruence. }
  assert (He : forall c, c <> STDERR ->
             Forall (λ msg, channel msg <> c) (outputSender STDERR (stderrReads p))).
  { intros c Hc. eapply Forall_impl; [apply outputSender_channel|].
    simpl. intros msg ->. congruence. }
  split; [|split].
  - rewrite interleave_bytes_l by (apply He; discriminate).
    apply outputSender_bytes.
  - rewrite interleave_bytes_r by (apply Ho; discriminate).
    apply outputSender_bytes.
  - rewrite interleave_bytes_l by (apply He; discriminate).
    apply other_channel_bytes, Ho. discriminate.
Qed.

(** X15 for a process that writes to both pipes, the senders taking
    turns. *)
Lemma runCommand_forwards_every_byte_in_order_witness :
  let req := mkCommandRequest "c3" "make" [] [] in
  let p := {| StdoutPipe_err := None; StderrPipe_err := None; Start_err := None;
              stdoutReads := [mkReadResult (bytesOf "ab") None;
                              mkReadResult (bytesOf "c") (Some EOF)];
              stderrReads := [mkReadResult (bytesOf "w1") None;
                              mkReadResult (bytesOf "w2") None;
                              mkReadResult [] (Some EOF)];
              schedule := [false; true; false; true; true];
              Wait_result := WaitExitError (Some 2) |} in
  started p = true
  /\ channelBytes STDOUT (runCommand req p) = bytesOf "abc"
  /\ channelBytes STDERR (runCommand req p) = bytesOf "w1w2".
Proof.
  cbv zeta. split; [reflexivity|].
  destruct (runCommand_forwards_every_byte_in_order
              (mkCommandRequest "c3" "make" [] [])
              {| StdoutPipe_err := None; StderrPipe_err := None; Start_err := None;
                 stdoutReads := [mkReadResult (bytesOf "ab") None;
                                 mkReadResult (bytesOf "c") (Some EOF)];
                 stderrReads := [mkReadResult (bytesOf "w1") None;
                                 mkReadResult (bytesOf "w2") None;
                                 mkReadResult [] (Some EOF)];
                 schedule := [false; true; false; true; true];
                 Wait_result := WaitExitError (Some 2) |} eq_refl)
    as (Ho & He & _).
  split; [rewrite Ho | rewrite He]; reflexivity.
Defined.

(** X16. Every frame [runCommand] puts on [dataflow], data, closed or
    termination, on the failure paths as well, carries the id of the
    request it answers. *)
Theorem runCommand_frames_carry_request_id (req : CommandRequest) (p : Process) :
  Forall (λ f, frameId f = Some (cr_Id req)) (runCommand req p).
Proof.
  destruct (started p) eqn:Hs.
  - rewrite (runCommand_frames req p Hs). apply Forall_app. split.
    + apply Forall_forall. intros f Hin. apply list_elem_of_fmap in Hin as (msg & -> & _).
      unfold toFrame. destruct (closed msg); reflexivity.
    + destruct (ends (stdoutReads p) && ends (stderrReads p)); [|constructor].
      repeat constructor. destruct (Wait_result p) as [|[s|]|e]; reflexivity.
  - unfold started in Hs. unfold runCommand.
    destruct (StdoutPipe_err p); [repeat constructor|].
    destruct (StderrPipe_err p); [repeat constructor|].
    destruct (Start_err p); [repeat constructor|discriminate].
Qed.

(** X17. When the process was started and both pipes came to an end, the
    last frame reports how [Wait] ended: exit code 0 when it returned no
    error, the exit status of the process when it exited with one, exit
    code 0 as well when the exit error has no wait status to read, and
    127 with the message [Wait(): error] for any other error. *)
Theorem runCommand_reports_exit_status (req : CommandRequest) (p : Process) :
  started p = true ->
  ends (stdoutReads p) = true ->
  ends (stderrReads p) = true ->
  last (runCommand req p)
  = Some (A2C_CommandTermination
            {| ct_Id := cr_Id req;
               ct_ExitCode := match Wait_result p with
                              | WaitNil => 0
                              | WaitExitError (Some status) => status
                              | WaitExitError None => 0
                              | WaitError _ => 127
                              end;
               ct_Message := match Wait_result p with
                             | WaitError e => "Wait(): " +:+ e
                             | _ => ""
                             end |}).
Proof.
  intros Hs H1 H2. rewrite (runCommand_frames req p Hs), H1, H2. cbn [andb].
  rewrite last_snoc. destruct (Wait_result p) as [|[s|]|e]; reflexivity.
Qed.

(** X17 for a process that exits with status 2. *)
Lemma runCommand_reports_exit_status_witness :
  let req := mkCommandRequest "c4" "false" [] [] in
  let p := {| StdoutPipe_err := None; StderrPipe_err := None; Start_err := None;
              stdoutReads := [mkReadResult [] (Some EOF)];
              stderrReads := [mkReadResult [] (Some (ReadFailed "file already closed"))];
              schedule := [];
              Wait_result := WaitExitError (Some 2) |} in
  started p = true
  /\ ends (stdoutReads p) = true
  /\ ends (stderrReads p) = true
  /\ last (runCommand req p)
     = Some (A2C_CommandTermination (mkCommandTermination "c4" 2 "")).
Proof.
  cbv zeta. repeat (split; [reflexivity|]).
  apply (runCommand_reports_exit_status
           (mkCommandRequest "c4" "false" [] [])
           {| StdoutPipe_err := None; StderrPipe_err := None; Start_err := None;
              stdoutReads := [mkReadResult [] (Some EOF)];
              stderrReads := [mkReadResult [] (Some (ReadFailed "file already closed"))];
              schedule := [];
              Wait_result := WaitExitError (Some 2) |});
    reflexivity.
Defined.

End AgentForwarding.

(** ** The command tool *)

Section CommandToolEndings.
Import tunnel cmdtool.

(** X18. The tool calls [os.Exit] only for a [CommandTermination] frame:
    if it ends that way, the stream held such a frame, everything before
    it was a message that is not one, and the exit code is that frame's.
    When the stream ends, by [io.EOF] or by an error, before any such
    frame, the tool ends in [log.Fatalf], the data frames received until
    then written to its standard output and standard error. *)
Theorem tool_exits_only_on_termination (stream : list Recv) :
  (forall code o,
      runCommand stream start = Exit code o ->
      exists msgs t rest,
        stream = map RecvMsg msgs ++ RecvMsg (C2T_CommandTermination t) :: rest
        /\ forallb notTermination msgs = true
        /\ code = tct_ExitCode t)
  /\ (forall msgs rest e,
        forallb notTermination msgs = true ->
        stream = map RecvMsg msgs ++ RecvEOF :: rest
        \/ stream = map RecvMsg msgs ++ RecvError e :: rest ->
        runCommand stream start
        = Fatal {| Stdout := stdoutBytes msgs; Stderr := stderrBytes msgs |}).
Proof.
  split.
  - generalize start. induction stream as [|[msg| |e] stream IH]; intros o0 code o;
      try discriminate.
    destruct msg as [t|d|]; cbn [runCommand].
    + unfold onCommandTermination. intros [= <- _].
      exists [], t, stream. auto.
    + intros H. destruct (IH _ _ _ H) as (msgs & t & rest & -> & Hn & ->).
      exists (C2T_CommandData d :: msgs), t, rest. auto.
    + intros H. destruct (IH _ _ _ H) as (msgs & t & rest & -> & Hn & ->).
      exists (C2T_nil :: msgs), t, rest. auto.
  - intros msgs rest e Hn [-> | ->]; rewrite runCommand_data by exact Hn;
      reflexivity.
Qed.

(** X19. Setting [--env] values one after the other succeeds exactly
    when every value contains an equals sign, and then the environment
    is the one before followed by the values in the order they were
    given; otherwise parsing fails with the syntax message. *)
Theorem parseEnv_accepts_only_assignments (values i : list string) :
  (forallb Contains_eq values = true -> parseEnv values i = inl (i ++ values))
  /\ (forallb Contains_eq values = false ->
      parseEnv values i = inr "syntax: NAME=value").
Proof.
  revert i. induction values as [|value values IH]; intros i.
  - split; [intros _; simpl; rewrite app_nil_r; reflexivity | discriminate].
  - cbn [forallb parseEnv]. unfold environment_Set.
    destruct (Contains_eq value); cbn [negb andb].
    + destruct (IH (i ++ [value])) as [IH1 IH2]. split.
      * intros H. rewrite IH1 by exact H. rewrite <- app_assoc. reflexivity.
      * exact IH2.
    + split; [discriminate | reflexivity].
Qed.

End CommandToolEndings.

(** ** The frames of one channel *)

Section ChannelFrames.
Import tunnel agent.

Lemma framesOn_app (c : ChannelDirection) (l1 l2 : list AgentToControllerWrapper) :
  framesOn c (l1 ++ l2) = framesOn c l1 ++ framesOn c l2.
Proof.
  induction l1 as [|f l1 IH]; simpl; [reflexivity|].
  destruct (onChannel c f); simpl; rewrite IH; reflexivity.
Qed.

Lemma onChannel_toFrame (req : CommandRequest) (c : ChannelDirection)
    (msg : outputMessage) :
  onChannel c (toFrame req msg) = ChannelDirection_eqb (channel msg) c.
Proof. unfold toFrame. destruct (closed msg); reflexivity. Qed.

Lemma framesOn_same (req : CommandRequest) (c : ChannelDirection)
    (l : list outputMessage) :
  Forall (λ msg, channel msg = c) l ->
  framesOn c (map (toFrame req) l) = map (toFrame req) l.
Proof.
  induction 1 as [|msg l Hc _ IH]; [reflexivity|].
  cbn [map framesOn]. rewrite onChannel_toFrame, Hc, IH.
  destruct c; reflexivity.
Qed.

Lemma framesOn_other (req : CommandRequest) (c : ChannelDirection)
    (l : list outputMessage) :
  Forall (λ msg, channel msg <> c) l ->
  framesOn c (map (toFrame req) l) = [].
Proof.
  induction 1 as [|msg l Hc _ IH]; [reflexivity|].
  cbn [map framesOn]. rewrite onChannel_toFrame.
  destruct (ChannelDirection_eqb (channel msg) c) eqn:He; [|exact IH].
  apply ChannelDirection_eqb_eq in He. contradiction.
Qed.

Lemma interleave_framesOn_l (req : CommandRequest) (c : ChannelDirection)
    (sched : list bool) :
  forall l1 l2 : list outputMessage,
    Forall (λ msg, channel msg <> c) l2 ->
    framesOn c (map (toFrame req) (interleave sched l1 l2))
    = framesOn c (map (toFrame req) l1).
Proof.
  induction sched as [|[] sched IH]; intros l1 l2 H2; cbn [interleave].
  - rewrite map_app, framesOn_app, (framesOn_other req c l2 H2). apply app_nil_r.
  - destruct l1 as [|x l1]; [apply framesOn_other; exact H2|].
    cbn [map framesOn]. rewrite IH by exact H2. reflexivity.
  - destruct l2 as [|y l2]; [reflexivity|].
    inversion H2 as [|? ? Hy H2']; subst.
    cbn [map framesOn]. rewrite onChannel_toFrame, IH by exact H2'.
    destruct (ChannelDirection_eqb (channel y) c) eqn:He; [|reflexivity].
    apply ChannelDirection_eqb_eq in He. contradiction.
Qed.

Lemma interleave_framesOn_r (req : CommandRequest) (c : ChannelDirection)
    (sched : list bool) :
  forall l1 l2 : list outputMessage,
    Forall (λ msg, channel msg <> c) l1 ->
    framesOn c (map (toFrame req) (interleave sched l1 l2))
    = framesOn c (map (toFrame req) l2).
Proof.
  induction sched as [|[] sched IH]; intros l1 l2 H1; cbn [interleave].
  - rewrite map_app, framesOn_app, (framesOn_other req c l1 H1). reflexivity.
  - destruct l1 as [|x l1]; [reflexivity|].
    inversion H1 as [|? ? Hx H1']; subst.
    cbn [map framesOn]. rewrite onChannel_toFrame, IH by exact H1'.
    destruct (ChannelDirection_eqb (channel x) c) eqn:He; [|reflexivity].
    apply ChannelDirection_eqb_eq in He. contradiction.
  - destruct l2 as [|y l2]; [apply framesOn_other; exact H1|].
    cbn [map framesOn]. rewrite IH by exact H1. reflexivity.
Qed.

(** What one sender puts on the aggregation channel: a data message for
    every read that returned bytes, none of them empty, and after them
    one closed message when the reads come to an end. *)
Lemma outputSender_shape (req : CommandRequest) (c : ChannelDirection)
    (reads : list ReadResult) :
  exists chunks : list bytes,
    Forall (λ b, b <> []) chunks
    /\ concat chunks = bytesRead reads
    /\ map (toFrame req) (outputSender c reads)
       = map (makeCommandData req c) chunks
         ++ (if ends reads then [makeCommandDataClosed req c] else []).
Proof.
  induction reads as [|rd reads (chunks & Hne & Hcat & Hs)].
  - exists []. repeat split; auto.
  - unfold ends in *. cbn [outputSender bytesRead existsb].
    destruct (rd_bytes rd) as [|b bs] eqn:Hb; cbn [length Nat.ltb Nat.leb].
    + destruct (rd_err rd) as [[|e]|]; cbn [app orb].
      * exists []. repeat split; auto.
      * exists []. repeat split; auto.
      * exists chunks. repeat split; auto.
    + destruct (rd_err rd) as [[|e]|]; cbn [app orb map].
      * exists [b :: bs]. split; [repeat constructor; discriminate|].
        split; [simpl; rewrite app_nil_r; reflexivity | reflexivity].
      * exists [b :: bs]. split; [repeat constructor; discriminate|].
        split; [simpl; rewrite app_nil_r; reflexivity | reflexivity].
      * exists ((b :: bs) :: chunks). split; [constructor; [discriminate|exact Hne]|].
        split; [simpl; rewrite Hcat; reflexivity|].
        rewrite Hs. reflexivity.
Qed.

(** X20. For a started process and every schedule, the frames
    [runCommand] sends on STDOUT are, in this order, data frames that
    carry the bytes read from the standard output pipe in non-empty
    pieces, and after them one closed frame when the pipe came to an
    end; no data frame follows the closed frame of its channel, and no
    data frame is empty. The same holds for STDERR. *)
Theorem runCommand_channel_frames (req : CommandRequest) (p : Process) :
  started p = true ->
  (exists chunks,
      Forall (λ b, b <> []) chunks
      /\ concat chunks = bytesRead (stdoutReads p)
      /\ framesOn STDOUT (runCommand req p)
         = map (makeCommandData req STDOUT) chunks
           ++ (if ends (stdoutReads p) then [makeCommandDataClosed req STDOUT] else []))
  /\ (exists chunks,
        Forall (λ b, b <> []) chunks
        /\ concat chunks = bytesRead (stderrReads p)
        /\ framesOn STDERR (runCommand req p)
           = map (makeCommandData req STDERR) chunks
             ++ (if ends (stderrReads p) then [makeCommandDataClosed req STDERR] else [])).
Proof.
  intros Hs. rewrite (runCommand_frames req p Hs).
  assert (Ht : forall c, framesOn c
                 (if ends (stdoutReads p) && ends (stderrReads p)
                  then [afterWait req (Wait_result p)] else []) = []).
  { intros c. destruct (ends (stdoutReads p) && ends (stderrReads p)); [|reflexivity].
    destruct (Wait_result p) as [|[s|]|e]; reflexivity. }
  rewrite !framesOn_app, !Ht, !app_nil_r.
  assert (Ho : Forall (λ msg, channel msg <> STDERR)
                 (outputSender STDOUT (stdoutReads p))).
  { eapply Forall_impl; [apply outputSender_channel|]. simpl. intros msg ->. discriminate. }
  assert (He : Forall (λ msg, channel msg <> STDOUT)
                 (outputSender STDERR (stderrReads p))).
  { eapply Forall_impl; [apply outputSender_channel|]. simpl. intros msg ->. discriminate. }
  split.
  - rewrite interleave_framesOn_l by exact He.
    rewrite framesOn_same by apply outputSender_channel.
    apply outputSender_shape.
  - rewrite interleave_framesOn_r by exact Ho.
    rewrite framesOn_same by apply outputSender_channel.
    apply outputSender_shape.
Qed.

(** X20 for a process that writes to both pipes, the senders taking
    turns. *)
Lemma runCommand_channel_frames_witness :
  let req := mkCommandRequest "c5" "make" [] [] in
  let p := {| StdoutPipe_err := None; StderrPipe_err := None; Start_err := None;
              stdoutReads := [mkReadResult (bytesOf "ab") None;
                              mkReadResult [] None;
                              mkReadResult (bytesOf "c") (Some EOF)];
              stderrReads := [mkReadResult (bytesOf "w") None;
                              mkReadResult [] (Some EOF)];
              schedule := [false; true; true; false];
              Wait_result := WaitNil |} in
  started p = true
  /\ exists chunks,
       Forall (λ b, b <> []) chunks
       /\ concat chunks = bytesOf "abc"
       /\ framesOn STDOUT (runCommand req p)
          = map (makeCommandData req STDOUT) chunks ++ [makeCommandDataClosed req STDOUT].
Proof.
  cbv zeta. split; [reflexivity|].
  destruct (runCommand_channel_frames
              (mkCommandRequest "c5" "make" [] [])
              {| StdoutPipe_err := None; StderrPipe_err := None; Start_err := None;
                 stdoutReads := [mkReadResult (bytesOf "ab") None;
                                 mkReadResult [] None;
                                 mkReadResult (bytesOf "c") (Some EOF)];
                 stderrReads := [mkReadResult (bytesOf "w") None;
                                 mkReadResult [] (Some EOF)];
                 schedule := [false; true; true; false];
                 Wait_result := WaitNil |} eq_refl)
    as ((chunks & Hne & Hcat & Hf) & _).
  exists chunks. split; [exact Hne|]. split; [exact Hcat|exact Hf].
Defined.

End ChannelFrames.

(** ** Returns that are not a clean close, and the Kubernetes listener *)

Section CleanClose.
Import tunnel ca http controller.

Lemma responseLoop_unclean (h : Header) (out : list Recv) :
  forall st st' : Handler,
    cleanClose st = false ->
    (seenHeader st = false -> w st = freshWriter h) ->
    responseLoop out st = Returned st' ->
    cleanClose st' = false ->
    seenHeader st' = false /\ rw_sent (w st') = [SentHeader StatusBadGateway h].
Proof.
  induction out as [|[msg|] out IH]; intros st st' Hc Hw; cbn [responseLoop].
  - discriminate.
  - destruct msg as [ts|resp|c| |d|t|]; cbn [onMessage]; try (apply IH; assumption).
    + unfold onHttpResponse, callWriteHeader.
      destruct (WriteHeader _ _) as [w2|]; [|discriminate].
      destruct (resp_ContentLength resp =? 0).
      * intros [= <-]. discriminate.
      * apply IH; [exact Hc | discriminate].
    + unfold onHttpChunkedResponse. destruct (seenHeader st) eqn:Hs; cbn [negb].
      * destruct (length (chunk_Body c) =? 0)%nat.
        -- intros [= <-]. discriminate.
        -- apply IH; [exact Hc | cbn [seenHeader]; congruence].
      * unfold callWriteHeader. rewrite (Hw eq_refl). cbn.
        intros [= <-] _. cbn. auto.
  - unfold onClosed, callWriteHeader. destruct (negb (seenHeader st)).
    + destruct (WriteHeader _ _) as [w2|]; [|discriminate].
      intros [= <-]. discriminate.
    + intros [= <-]. discriminate.
Qed.

(** X21. The loop returns without a clean close in one case only: a
    chunk came before any [HttpResponse]. Whatever the frames were, when
    the handler has returned with [cleanClose] unset, no header was seen
    and all that was sent is the status line 502; every other return,
    by a response without body, by the empty chunk or by the mailbox being
    closed, sets [cleanClose]. *)
Theorem unclean_return_is_the_protocol_error
    (h : Header) (r0 : Request) (out : list Recv) (st : Handler) :
  responseLoop out (enterLoop (freshWriter h) r0) = Returned st ->
  cleanClose st = false ->
  seenHeader st = false
  /\ rw_sent (w st) = [SentHeader StatusBadGateway h].
Proof.
  apply responseLoop_unclean; [reflexivity|]. intros _. reflexivity.
Qed.

(** X21 at a mailbox that delivers a ping and then a chunk. *)
Lemma unclean_return_is_the_protocol_error_witness :
  let r0 := http.mkRequest "GET" "/api" ∅ [] [] None in
  let out := [RecvMsg (A2C_PingRequest 7);
              chunkFrame (mkHttpChunkedResponse "t" (bytesOf "late"))] in
  let st := {| w := sendHeader StatusBadGateway (freshWriter ∅); r := r0;
               seenHeader := false; isChunked := false; cleanClose := false |} in
  responseLoop out (enterLoop (freshWriter ∅) r0) = Returned st
  /\ cleanClose st = false
  /\ rw_sent (w st) = [SentHeader StatusBadGateway ∅].
Proof.
  cbv zeta. split; [reflexivity|]. split; [reflexivity|].
  apply (unclean_return_is_the_protocol_error
           ∅ (http.mkRequest "GET" "/api" ∅ [] [] None)
           [RecvMsg (A2C_PingRequest 7);
            chunkFrame (mkHttpChunkedResponse "t" (bytesOf "late"))]);
    reflexivity.
Defined.

Variable commonNameOf : CertificateName -> string.
Variables caCert freshKey agentHostname transactionID : string.
Variable agentPort : Z.
Variable validateManifest : cncserver.ManifestRequest -> option string.
Variable ValidateJWT : string -> option (string * string * string).
Variable SendToAgent : string -> HttpRequest -> bool.

(** X22. The Kubernetes listener routes by the common name alone and
    never looks at the purpose of the certificate: whatever the first
    peer certificate is, whatever name and purpose are encoded in it or
    none at all, the request goes, as a [kubernetes] request with the
    method, URI and body it came with, to the agent named by the first
    label of the certificate's common name, when a session of that agent
    takes it, and is answered 502 with nothing dispatched otherwise. So
    the agent certificate [generateAgentManifestComponents] hands out,
    which the service listener gets no identity from, is taken there,
    for the agent named by the first label of its common name. *)
Theorem kubernetes_listener_routes_by_common_name
    (cert : Certificate) (rest : list Certificate)
    (w0 : ResponseWriter) (rm uri : string) (hdr : Header) (body : bytes)
    (auth : option (string * string)) (out : list Recv)
    (req : cncserver.ManifestRequest) (m : string) (certs : list Certificate) :
  let request := λ first : Certificate,
        {| Method := rm; RequestURI := uri; Header_ := hdr; Body := body;
           PeerCertificates := first :: rest; BasicAuth := auth |} in
  let fwd := {| req_Id := transactionID; req_Name := ""; req_Type := "kubernetes";
                req_Method := rm; req_URI := uri;
                req_Headers := makeHeaders hdr; req_Body := body |} in
  let routed := λ (first : Certificate) (agentname : string),
        if SendToAgent agentname fwd
        then {| outcome := responseLoop out (enterLoop w0 (request first));
                dispatched := [({| as_Name := agentname;
                                   as_EndpointType := "";
                                   as_EndpointName := "";
                                   as_Session := "" |}, fwd)] |}
        else {| outcome :=
                  Returned {| w := sendHeader StatusBadGateway w0;
                              r := request first;
                              seenHeader := false; isChunked := false;
                              cleanClose := false |};
                dispatched := [] |} in
  kubernetesAPIHandler transactionID SendToAgent w0 (request cert) out
  = Some (routed cert (firstLabel (Subject_CommonName cert)))
  /\ (validateManifest req = None ->
        exists resp,
          cncserver.generateAgentManifestComponents
            (GenerateCertificate commonNameOf caCert freshKey) validateManifest
            agentHostname agentPort
            {| cncserver.Method := m; cncserver.PeerCertificates := certs;
               cncserver.decoded := Some req |}
          = cncserver.Wrote resp
          /\ (extractEndpointFromCert
                (request (cncserver.mresp_AgentCertificate resp))).2 = false
          /\ kubernetesAPIHandler transactionID SendToAgent w0
               (request (cncserver.mresp_AgentCertificate resp)) out
             = Some (routed (cncserver.mresp_AgentCertificate resp)
                       (firstLabel
                          (commonNameOf (cncserver.agentCertificateName req))))).
Proof.
  cbv zeta.
  assert (Hk : forall first : Certificate,
             kubernetesAPIHandler transactionID SendToAgent w0
               {| Method := rm; RequestURI := uri; Header_ := hdr; Body := body;
                  PeerCertificates := first :: rest; BasicAuth := auth |} out
             = Some
                 (if SendToAgent (firstLabel (Subject_CommonName first))
                       {| req_Id := transactionID; req_Name := "";
                          req_Type := "kubernetes"; req_Method := rm; req_URI := uri;
                          req_Headers := makeHeaders hdr; req_Body := body |}
                  then {| outcome :=
                            responseLoop out
                              (enterLoop w0
                                 {| Method := rm; RequestURI := uri; Header_ := hdr;
                                    Body := body; PeerCertificates := first :: rest;
                                    BasicAuth := auth |});
                          dispatched :=
                            [({| as_Name := firstLabel (Subject_CommonName first);
                                 as_EndpointType := "";
                                 as_EndpointName := "";
                                 as_Session := "" |},
                              {| req_Id := transactionID; req_Name := "";
                                 req_Type := "kubernetes"; req_Method := rm;
                                 req_URI := uri; req_Headers := makeHeaders hdr;
                                 req_Body := body |})] |}
                  else {| outcome :=
                            Returned
                              {| w := sendHeader StatusBadGateway w0;
                                 r := {| Method := rm; RequestURI := uri;
                                         Header_ := hdr; Body := body;
                                         PeerCertificates := first :: rest;
                                         BasicAuth := auth |};
                                 seenHeader := false; isChunked := false;
                                 cleanClose := false |};
                          dispatched := [] |})).
  { intros first. unfold kubernetesAPIHandler.
    cbn [PeerCertificates Method RequestURI Header_ Body].
    match goal with |- context [SendToAgent ?a ?q] => destruct (SendToAgent a q) end;
      cbn [negb]; [reflexivity|].
    rewrite callWriteHeader_valid by reflexivity. reflexivity. }
  split; [apply Hk|].
  intros Hv. unfold cncserver.generateAgentManifestComponents. simpl. rewrite Hv.
  eexists. split; [reflexivity|]. split; [reflexivity|].
  rewrite Hk. reflexivity.
Qed.

End CleanClose.

(** X22 for a certificate that encodes a service identity of another
    agent under the common name [east.agent], and for the certificate
    minted for the agent [east]. *)
Lemma kubernetes_listener_routes_by_common_name_witness :
  let validate := λ _ : cncserver.ManifestRequest, @None string in
  let cnOf := λ n : ca.CertificateName, ca.cn_Agent n +:+ ".agent" in
  let req := cncserver.mkManifestRequest "east" in
  let cert := ca.mkCertificate "east.agent"
                (Some (ca.mkCertificateName "prod" "aws" "west"
                         ca.CertificatePurposeService)) in
  validate req = None
  /\ controller.dispatched <$>
       controller.kubernetesAPIHandler "t" (λ _ _, true) http.newResponseWriter
         (http.mkRequest "GET" "/api" ∅ [] [cert] None) []
     = Some [(controller.mkAgentSearch "east" "" "" "",
              tunnel.mkHttpRequest "t" "" "kubernetes" "GET" "/api" [] [])]
  /\ exists resp,
       cncserver.generateAgentManifestComponents
         (ca.GenerateCertificate cnOf "CA" "KEY") validate "controller.example" 9001
         (cncserver.mkRequest _ "POST" [] (Some req))
       = cncserver.Wrote resp
       /\ controller.dispatched <$>
            controller.kubernetesAPIHandler "t" (λ _ _, true) http.newResponseWriter
              (http.mkRequest "GET" "/api" ∅ []
                 [cncserver.mresp_AgentCertificate resp] None) []
          = Some [(controller.mkAgentSearch "east" "" "" "",
                   tunnel.mkHttpRequest "t" "" "kubernetes" "GET" "/api" [] [])].
Proof.
  cbv zeta. split; [reflexivity|].
  destruct (kubernetes_listener_routes_by_common_name
              (λ n : ca.CertificateName, ca.cn_Agent n +:+ ".agent")
              "CA" "KEY" "controller.example" "t" 9001 (λ _, None) (λ _ _, true)
              (ca.mkCertificate "east.agent"
                 (Some (ca.mkCertificateName "prod" "aws" "west"
                          ca.CertificatePurposeService)))
              [] http.newResponseWriter "GET" "/api" ∅ [] None []
              (cncserver.mkManifestRequest "east") "POST" [])
    as (Hany & Hminted).
  split; [rewrite Hany; vm_compute; reflexivity|].
  destruct (Hminted eq_refl) as (resp & Hw & _ & Hk).
  exists resp. split; [exact Hw|]. rewrite Hk. vm_compute. reflexivity.
Defined.

(** X6 for a request with a service certificate for (east, aws, prod)
    and one session that takes every request. *)
Lemma serviceAPIHandler_dispatches_under_identity_witness :
  let cert := ca.mkCertificate "east.aws.prod"
                (Some (ca.mkCertificateName "prod" "aws" "east"
                         ca.CertificatePurposeService)) in
  let r0 := http.mkRequest "GET" "/api" ∅ [] [cert] None in
  let Send := λ (_ : controller.AgentSearch) (_ : tunnel.HttpRequest), Some "session" in
  controller.extractEndpoint (λ _, None) r0 = inl ("east", "aws", "prod")
  /\ controller.dispatched
       (controller.serviceAPIHandler (λ _, None) (λ _, []) "t" Send
          http.newResponseWriter r0 [])
     = [(controller.mkAgentSearch "east" "aws" "prod" "",
         tunnel.mkHttpRequest "t" "prod" "aws" "GET" "/api"
           (controller.makeHeaders ∅) [])].
Proof.
  cbv zeta. split; [reflexivity|].
  destruct (serviceAPIHandler_dispatches_under_identity
              (λ _, None) (λ _, []) "t" (λ _ _, Some "session")
              http.newResponseWriter
              (http.mkRequest "GET" "/api" ∅ []
                 [ca.mkCertificate "east.aws.prod"
                    (Some (ca.mkCertificateName "prod" "aws" "east"
                             ca.CertificatePurposeService))] None)
              [] "east" "aws" "prod" eq_refl)
    as [_ Hs].
  destruct (Hs "session" eq_refl) as [Hd _]. exact Hd.
Defined.
